(** * secure-login-system: salted password hashing, TOTP and the login flow

    A shallow embedding of [secure_login.py].  The class
    [SecureLoginSystem] keeps a table of users in SQLite, hashes passwords
    with a salted SHA-256, produces RFC 4226 / RFC 6238 one-time codes with
    HMAC-SHA1 over a base32 secret and sequences both checks in [login].

    The first part of the file models the pieces of the Python standard
    library that the class calls ([hashlib], [hmac], [base64], [struct],
    [secrets], [str]); the second part embeds the methods of the class, with
    the object state, the standard output, the clock and the entropy source
    passed explicitly; the third part states and proves the properties.

    Python [str] values are represented by their UTF-8 bytes (a Rocq
    [string]), so that [s.encode()] is the identity on the representation;
    Python [bytes] values are [list byte].  A [str] that UTF-8 cannot
    encode (one that holds a lone surrogate) is not such a text: for the
    password of a login it is given by its code points, see [login_str]. *)

From Stdlib Require Import ZArith String Ascii List Bool Lia.
From Stdlib Require Import Init.Byte.
Import ListNotations.

Local Open Scope string_scope.
Local Open Scope list_scope.
Local Open Scope Z_scope.

(* ================================================================== *)
(** ** Bytes and machine words *)

Module Bytes.

Definition bytes := list byte.

Definition to_Z (b : byte) : Z := Z.of_N (Byte.to_N b).

Definition of_Z (z : Z) : byte :=
  match Byte.of_N (Z.to_N (z mod 256)) with
  | Some b => b
  | None => x00
  end.

(** [int.to_bytes(n, 'big')] on the low [n] bytes of [z]. *)
Fixpoint be_bytes (n : nat) (z : Z) : bytes :=
  match n with
  | O => []
  | S k => of_Z (Z.shiftr z (8 * Z.of_nat k)) :: be_bytes k z
  end.

(** [int.from_bytes(bs, 'big')]. *)
Definition be_int (bs : bytes) : Z :=
  fold_left (fun acc b => Z.lor (Z.shiftl acc 8) (to_Z b)) bs 0.

Definition xor_byte (k : Z) (b : byte) : byte := of_Z (Z.lxor (to_Z b) k).

(** Cut a byte string into consecutive pieces of [n] bytes; a shorter
    last piece is kept. *)
Fixpoint chunks_fuel (fuel n : nat) (bs : bytes) : list bytes :=
  match fuel with
  | O => []
  | S f =>
      match bs with
      | [] => []
      | _ => firstn n bs :: chunks_fuel f n (skipn n bs)
      end
  end.

Definition chunks (n : nat) (bs : bytes) : list bytes :=
  chunks_fuel (length bs) n bs.

Definition eqb (x y : bytes) : bool :=
  if list_eq_dec Byte.byte_eq_dec x y then true else false.

End Bytes.

Module Word32.

Definition mask : Z := 0xFFFFFFFF.

Definition wrap (x : Z) : Z := Z.land x mask.

Definition add (x y : Z) : Z := wrap (x + y).

Definition rotr (n x : Z) : Z :=
  Z.lor (Z.shiftr x n) (wrap (Z.shiftl x (32 - n))).

Definition rotl (n x : Z) : Z :=
  Z.lor (wrap (Z.shiftl x n)) (Z.shiftr x (32 - n)).

Definition lnot (x : Z) : Z := Z.lxor x mask.

Definition of_bytes (bs : Bytes.bytes) : Z := Bytes.be_int (firstn 4 bs).

Definition to_bytes (w : Z) : Bytes.bytes := Bytes.be_bytes 4 w.

End Word32.

(* ================================================================== *)
(** ** hashlib: SHA-256 and SHA-1 (FIPS 180-4) *)

Module Hashlib.

Import Bytes.

(** Merkle-Damgard padding shared by SHA-1 and SHA-256: a 1 bit, zero
    bits up to 56 modulo 64 bytes, then the bit length on 8 bytes. *)
Definition pad (msg : bytes) : bytes :=
  let len := Z.of_nat (length msg) in
  msg ++ x80 :: repeat x00 (Z.to_nat ((55 - len) mod 64))
      ++ be_bytes 8 (8 * len).

Definition block_words (blk : bytes) : list Z :=
  map Word32.of_bytes (chunks 4 blk).

Definition W (ws : list Z) (i : nat) : Z := nth i ws 0.

Module SHA256.

Import Word32.

Definition Ch (x y z : Z) := Z.lxor (Z.land x y) (Z.land (lnot x) z).
Definition Maj (x y z : Z) :=
  Z.lxor (Z.lxor (Z.land x y) (Z.land x z)) (Z.land y z).
Definition BSig0 x := Z.lxor (Z.lxor (rotr 2 x) (rotr 13 x)) (rotr 22 x).
Definition BSig1 x := Z.lxor (Z.lxor (rotr 6 x) (rotr 11 x)) (rotr 25 x).
Definition SSig0 x := Z.lxor (Z.lxor (rotr 7 x) (rotr 18 x)) (Z.shiftr x 3).
Definition SSig1 x := Z.lxor (Z.lxor (rotr 17 x) (rotr 19 x)) (Z.shiftr x 10).

Definition K : list Z :=
  [ 0x428A2F98; 0x71374491; 0xB5C0FBCF; 0xE9B5DBA5;
    0x3956C25B; 0x59F111F1; 0x923F82A4; 0xAB1C5ED5;
    0xD807AA98; 0x12835B01; 0x243185BE; 0x550C7DC3;
    0x72BE5D74; 0x80DEB1FE; 0x9BDC06A7; 0xC19BF174;
    0xE49B69C1; 0xEFBE4786; 0x0FC19DC6; 0x240CA1CC;
    0x2DE92C6F; 0x4A7484AA; 0x5CB0A9DC; 0x76F988DA;
    0x983E5152; 0xA831C66D; 0xB00327C8; 0xBF597FC7;
    0xC6E00BF3; 0xD5A79147; 0x06CA6351; 0x14292967;
    0x27B70A85; 0x2E1B2138; 0x4D2C6DFC; 0x53380D13;
    0x650A7354; 0x766A0ABB; 0x81C2C92E; 0x92722C85;
    0xA2BFE8A1; 0xA81A664B; 0xC24B8B70; 0xC76C51A3;
    0xD192E819; 0xD6990624; 0xF40E3585; 0x106AA070;
    0x19A4C116; 0x1E376C08; 0x2748774C; 0x34B0BCB5;
    0x391C0CB3; 0x4ED8AA4A; 0x5B9CCA4F; 0x682E6FF3;
    0x748F82EE; 0x78A5636F; 0x84C87814; 0x8CC70208;
    0x90BEFFFA; 0xA4506CEB; 0xBEF9A3F7; 0xC67178F2 ].

Record state := mk
  { ha : Z; hb : Z; hc : Z; hd : Z; he : Z; hf : Z; hg : Z; hh : Z }.

Definition init : state :=
  mk 0x6A09E667 0xBB67AE85 0x3C6EF372 0xA54FF53A
     0x510E527F 0x9B05688C 0x1F83D9AB 0x5BE0CD19.

(** Message schedule: the 16 words of the block, then 48 derived
    words. *)
Fixpoint extend (n : nat) (ws : list Z) : list Z :=
  match n with
  | O => ws
  | S k =>
      let t := length ws in
      let w := add (add (SSig1 (W ws (t - 2))) (W ws (t - 7)))
                   (add (SSig0 (W ws (t - 15))) (W ws (t - 16))) in
      extend k (ws ++ [w])
  end.

Definition schedule (blk : bytes) : list Z := extend 48 (block_words blk).

Definition round (s : state) (kw : Z * Z) : state :=
  let (k, w) := kw in
  let t1 := add (add (add (hh s) (BSig1 (he s))) (Ch (he s) (hf s) (hg s)))
                (add k w) in
  let t2 := add (BSig0 (ha s)) (Maj (ha s) (hb s) (hc s)) in
  mk (add t1 t2) (ha s) (hb s) (hc s) (add (hd s) t1) (he s) (hf s) (hg s).

Definition compress (s : state) (blk : bytes) : state :=
  let r := fold_left round (combine K (schedule blk)) s in
  mk (add (ha s) (ha r)) (add (hb s) (hb r)) (add (hc s) (hc r))
     (add (hd s) (hd r)) (add (he s) (he r)) (add (hf s) (hf r))
     (add (hg s) (hg r)) (add (hh s) (hh r)).

Definition output (s : state) : bytes :=
  concat (map to_bytes
            [ha s; hb s; hc s; hd s; he s; hf s; hg s; hh s]).

Definition digest (msg : bytes) : bytes :=
  output (fold_left compress (chunks 64 (pad msg)) init).

End SHA256.

Module SHA1.

Import Word32.

Record state := mk { ha : Z; hb : Z; hc : Z; hd : Z; he : Z }.

Definition init : state :=
  mk 0x67452301 0xEFCDAB89 0x98BADCFE 0x10325476 0xC3D2E1F0.

Fixpoint extend (n : nat) (ws : list Z) : list Z :=
  match n with
  | O => ws
  | S k =>
      let t := length ws in
      let w := rotl 1 (Z.lxor (Z.lxor (W ws (t - 3)) (W ws (t - 8)))
                              (Z.lxor (W ws (t - 14)) (W ws (t - 16)))) in
      extend k (ws ++ [w])
  end.

Definition schedule (blk : bytes) : list Z := extend 64 (block_words blk).

(** The round function and constant of round [t], 0 <= t < 80. *)
Definition f (t : nat) (b c d : Z) : Z :=
  if (t <? 20)%nat then Z.lor (Z.land b c) (Z.land (lnot b) d)
  else if (t <? 40)%nat then Z.lxor (Z.lxor b c) d
  else if (t <? 60)%nat then
    Z.lor (Z.lor (Z.land b c) (Z.land b d)) (Z.land c d)
  else Z.lxor (Z.lxor b c) d.

Definition K (t : nat) : Z :=
  if (t <? 20)%nat then 0x5A827999
  else if (t <? 40)%nat then 0x6ED9EBA1
  else if (t <? 60)%nat then 0x8F1BBCDC
  else 0xCA62C1D6.

Definition round (s : state) (tw : nat * Z) : state :=
  let (t, w) := tw in
  let tmp := add (add (add (rotl 5 (ha s)) (f t (hb s) (hc s) (hd s)))
                      (add (he s) w)) (K t) in
  mk tmp (ha s) (rotl 30 (hb s)) (hc s) (hd s).

Definition compress (s : state) (blk : bytes) : state :=
  let r := fold_left round (combine (seq 0 80) (schedule blk)) s in
  mk (add (ha s) (ha r)) (add (hb s) (hb r)) (add (hc s) (hc r))
     (add (hd s) (hd r)) (add (he s) (he r)).

Definition output (s : state) : bytes :=
  concat (map to_bytes [ha s; hb s; hc s; hd s; he s]).

Definition digest (msg : bytes) : bytes :=
  output (fold_left compress (chunks 64 (pad msg)) init).

End SHA1.

(** [bytes.hex()] / [hexdigest()]: two lowercase hexadecimal digits per
    byte. *)
Definition hex_digit (n : Z) : ascii :=
  ascii_of_N (Z.to_N (if n <? 10 then 48 + n else 87 + n)).

Fixpoint hex (bs : bytes) : string :=
  match bs with
  | [] => EmptyString
  | b :: r =>
      String (hex_digit (Z.shiftr (to_Z b) 4))
        (String (hex_digit (Z.land (to_Z b) 15)) (hex r))
  end.

Definition sha256_hexdigest (msg : bytes) : string := hex (SHA256.digest msg).

End Hashlib.

Definition encode (s : string) : Bytes.bytes := list_byte_of_string s.


(* ================================================================== *)
(** ** hmac: [hmac.new(key, msg, hashlib.sha1).digest()] (RFC 2104) *)

Module Hmac.

Import Bytes.

Definition block_size : nat := 64.

(** A key longer than a block is hashed first; the key is then padded
    with zero bytes to the block size. *)
Definition block_key (key : bytes) : bytes :=
  let k := if (block_size <? length key)%nat
           then Hashlib.SHA1.digest key else key in
  k ++ repeat x00 (block_size - length k).

Definition sha1 (key msg : bytes) : bytes :=
  let k := block_key key in
  let inner := Hashlib.SHA1.digest (map (xor_byte 0x36) k ++ msg) in
  Hashlib.SHA1.digest (map (xor_byte 0x5C) k ++ inner).

End Hmac.

(* ================================================================== *)
(** ** Exceptions and results *)

Inductive exn : Type :=
| TypeError
| ValueError
| BinasciiError (msg : string)
| StructError
| ZeroDivisionError
| IndexError
| UnicodeEncodeError.

Inductive result (A : Type) : Type :=
| Ok (a : A)
| Raise (e : exn).

Arguments Ok {A} a.
Arguments Raise {A} e.

(* ================================================================== *)
(** ** base64: [b32encode] and [b32decode(s, casefold)] (RFC 4648) *)

Module Base64.

Import Bytes.

Definition pad_char : byte := "=".

(** [_b32rev]: the value of a base32 digit, [A]-[Z] then [2]-[7]. *)
Definition b32rev (c : byte) : option Z :=
  let n := to_Z c in
  if (65 <=? n) && (n <=? 90) then Some (n - 65)
  else if (50 <=? n) && (n <=? 55) then Some (n - 24)
  else None.

(** [_b32alphabet[v]] for [0 <= v < 32]. *)
Definition b32tab (v : Z) : byte :=
  of_Z (if v <? 26 then 65 + v else 24 + v).

(** [bytes.upper()]: ASCII lowercase letters only. *)
Definition upper_byte (c : byte) : byte :=
  let n := to_Z c in
  if (97 <=? n) && (n <=? 122) then of_Z (n - 32) else c.

Definition is_pad (c : byte) : bool := to_Z c =? 61.

Fixpoint lstrip_pad (s : bytes) : bytes :=
  match s with
  | c :: r => if is_pad c then lstrip_pad r else s
  | [] => []
  end.

(** [s.rstrip(b'=')]. *)
Definition rstrip_pad (s : bytes) : bytes := rev (lstrip_pad (rev s)).

(** [for c in quanta: acc = (acc << 5) + b32rev[c]]; [None] stands for
    the [KeyError]. *)
Fixpoint quantum (q : bytes) (acc : Z) : option Z :=
  match q with
  | [] => Some acc
  | c :: r =>
      match b32rev c with
      | Some v => quantum r (Z.shiftl acc 5 + v)
      | None => None
      end
  end.

(** The loop over the quanta: the decoded bytes so far and the
    accumulator of the last quantum. *)
Fixpoint quanta (qs : list bytes) (decoded : bytes) (acc : Z)
  : option (bytes * Z) :=
  match qs with
  | [] => Some (decoded, acc)
  | q :: r =>
      match quantum q 0 with
      | Some a => quanta r (decoded ++ be_bytes 5 a) a
      | None => None
      end
  end.

Definition is_ascii (c : byte) : bool := to_Z c <? 128.

Definition pad_ok (padchars : nat) : bool :=
  match padchars with
  | 0 | 1 | 3 | 4 | 6 => true
  | _ => false
  end%nat.

Definition b32decode (s : string) (casefold : bool) : result bytes :=
  let s := list_byte_of_string s in
  if negb (forallb is_ascii s) then Raise ValueError
  else if negb (length s mod 8 =? 0)%nat
  then Raise (BinasciiError "Incorrect padding")
  else
    let s := if casefold then map upper_byte s else s in
    let l := length s in
    let s := rstrip_pad s in
    let padchars := (l - length s)%nat in
    match quanta (chunks 8 s) [] 0 with
    | None => Raise (BinasciiError "Non-base32 digit found")
    | Some (decoded, acc) =>
        if negb (pad_ok padchars)
        then Raise (BinasciiError "Incorrect padding")
        else
          match padchars, decoded with
          | O, _ | _, [] => Ok decoded
          | _, _ =>
              let acc := Z.shiftl acc (5 * Z.of_nat padchars) in
              let last := be_bytes 5 acc in
              let leftover := ((43 - 5 * padchars) / 8)%nat in
              Ok (firstn (length decoded - 5) decoded
                    ++ firstn leftover last)
          end
    end.

(** [b32encode]: five bytes give eight digits; the last group is padded
    with zero bytes and its unused digits are replaced by [=]. *)
Definition encode_group (g : bytes) : bytes :=
  let c := be_int (g ++ repeat x00 (5 - length g)) in
  let digits :=
    map (fun i => b32tab (Z.land (Z.shiftr c (5 * (7 - Z.of_nat i))) 31))
        (seq 0 8) in
  let keep := match length g with
              | 1 => 2 | 2 => 4 | 3 => 5 | 4 => 7 | _ => 8
              end%nat in
  firstn keep digits ++ repeat pad_char (8 - keep).

Definition b32encode (s : bytes) : bytes :=
  concat (map encode_group (chunks 5 s)).

End Base64.

(* ================================================================== *)
(** ** struct, str and secrets *)

Module Struct.

(** [struct.pack('>Q', n)]: an unsigned 64-bit big-endian integer;
    [struct.error] outside the range. *)
Definition pack_Q (n : Z) : result Bytes.bytes :=
  if (0 <=? n) && (n <? 2 ^ 64) then Ok (Bytes.be_bytes 8 n)
  else Raise StructError.

End Struct.

Module PyStr.

Definition digit (d : Z) : ascii := ascii_of_N (Z.to_N (48 + d)).

(** Decimal digits of a non-negative integer, most significant first,
    pushed in front of [acc].  The fuel bounds the number of digits. *)
Fixpoint digits (fuel : nat) (n : Z) (acc : string) : string :=
  match fuel with
  | O => acc
  | S f =>
      let acc' := String (digit (n mod 10)) acc in
      if n / 10 =? 0 then acc' else digits f (n / 10) acc'
  end.

(** [str(n)] for an [int]. *)
Definition str (n : Z) : string :=
  if n <? 0
  then String "-" (digits (S (Z.to_nat (Z.log2 (- n)))) (- n) EmptyString)
  else digits (S (Z.to_nat (Z.log2 n))) n EmptyString.

Fixpoint zeros (k : nat) : string :=
  match k with
  | O => EmptyString
  | S j => String "0" (zeros j)
  end.

(** [s.zfill(width)]: zeros on the left, after a leading sign. *)
Definition zfill (width : nat) (s : string) : string :=
  let fill := zeros (width - String.length s) in
  match s with
  | String c r =>
      if (Ascii.eqb c "+" || Ascii.eqb c "-")%bool
      then String c (fill ++ r)
      else fill ++ s
  | EmptyString => fill
  end%string.

(** The [k] low decimal digits of [n], most significant first, in front
    of [acc]: a rendering on exactly [k] digits. *)
Fixpoint fixed_digits (k : nat) (n : Z) (acc : string) : string :=
  match k with
  | O => acc
  | S j => fixed_digits j (n / 10) (String (digit (n mod 10)) acc)
  end.

Definition is_digit (c : ascii) : bool :=
  let n := Z.of_N (N_of_ascii c) in (48 <=? n) && (n <=? 57).

Fixpoint all_digits (s : string) : bool :=
  match s with
  | EmptyString => true
  | String c r => is_digit c && all_digits r
  end.

End PyStr.

(* ================================================================== *)
(** ** The object, its table and its environment *)

(** A row of the table [users].  [two_factor_enabled] is an SQLite
    INTEGER, [two_factor_secret] a nullable TEXT. *)
Record Row : Type := mkRow
  { row_id : Z;
    username : string;
    password_hash : string;
    password_salt : string;
    two_factor_enabled : Z;
    two_factor_secret : option string }.

(** What a method can read or change: the rows of the table, the field
    [self.current_user], the lines printed so far, the reading of
    [time.time()] in whole seconds (for a positive integer step,
    [floor (t / step)] depends on the integral part of [t] only), and the
    bytes that the operating system's random source is going to deliver.
    [time.time()] is a float: below 2^53 seconds its floor division by the
    step is exact and gives the quotient of the whole seconds; beyond,
    the float quotient is rounded (at 1e20 seconds line 64 gives the
    counter 3333333333333333504), which an integer clock does not show.
    What is proved about the value of the counter is therefore stated for
    readings below 2^53, see [clock_exact]. *)
Record World : Type := mkWorld
  { users : list Row;
    current_user : option string;
    stdout : list string;
    clock : Z;
    entropy : nat -> byte }.

(** Values returned by [login]: a Python [bool] or [str]. *)
Inductive PyVal : Type :=
| PyBool (b : bool)
| PyStr (s : string).

(** *** A state and exception monad *)

Definition M (A : Type) : Type := World -> result A * World.

Definition ret {A} (a : A) : M A := fun w => (Ok a, w).

Definition raise {A} (e : exn) : M A := fun w => (Raise e, w).

Definition bind {A B} (c : M A) (k : A -> M B) : M B :=
  fun w =>
    match c w with
    | (Ok a, w') => k a w'
    | (Raise e, w') => (Raise e, w')
    end.

Definition lift {A} (r : result A) : M A := fun w => (r, w).

Declare Scope py_scope.
Delimit Scope py_scope with py.
Notation "x <- c ;; k" := (bind c (fun x => k))
  (at level 61, c at next level, right associativity) : py_scope.
Notation "' p <- c ;; k" := (bind c (fun x => let 'p := x in k))
  (at level 61, p pattern, c at next level, right associativity) : py_scope.
Notation "c ;; k" := (bind c (fun _ => k))
  (at level 61, right associativity) : py_scope.
Local Open Scope py_scope.

Definition print (line : string) : M unit :=
  fun w => (Ok tt, mkWorld (users w) (current_user w) (stdout w ++ [line])
                           (clock w) (entropy w)).

Definition time_time : M Z := fun w => (Ok (clock w), w).

(** [os.urandom(n)]: the next [n] bytes of the entropy source. *)
Definition urandom (n : nat) : M Bytes.bytes :=
  fun w => (Ok (map (entropy w) (seq 0 n)),
            mkWorld (users w) (current_user w) (stdout w) (clock w)
                    (fun i => entropy w (n + i)%nat)).

(** [secrets.token_hex(n)]. *)
Definition token_hex (n : nat) : M string :=
  bs <- urandom n ;; ret (Hashlib.hex bs).

Definition set_current_user (u : option string) : M unit :=
  fun w => (Ok tt, mkWorld (users w) u (stdout w) (clock w) (entropy w)).

Definition get_current_user : M (option string) :=
  fun w => (Ok (current_user w), w).

(** [SELECT ... FROM users WHERE username = ?] followed by [fetchone()]. *)
Definition select_user (name : string) : M (option Row) :=
  fun w => (Ok (find (fun r => String.eqb (username r) name) (users w)), w).

(** The rowid SQLite gives to a new row: one more than the largest. *)
Definition next_rowid (rows : list Row) : Z :=
  1 + fold_right (fun r m => Z.max (row_id r) m) 0 rows.

(** [INSERT INTO users (username, password_hash, password_salt,
    two_factor_enabled) VALUES (?, ?, ?, 0)] and [commit()]. *)
Definition insert_user (name hash salt : string) : M unit :=
  fun w => (Ok tt,
            mkWorld (users w ++ [mkRow (next_rowid (users w)) name hash salt
                                       0 None])
                    (current_user w) (stdout w) (clock w) (entropy w)).

(** [UPDATE users SET two_factor_enabled = 1, two_factor_secret = ?
    WHERE username = ?] and [commit()]. *)
Definition update_two_factor (secret name : string) : M unit :=
  fun w => (Ok tt,
            mkWorld (map (fun r =>
                            if String.eqb (username r) name
                            then mkRow (row_id r) (username r)
                                       (password_hash r) (password_salt r)
                                       1 (Some secret)
                            else r) (users w))
                    (current_user w) (stdout w) (clock w) (entropy w)).

(** [bs[i]] on [bytes], with Python's negative indices. *)
Definition getitem (bs : Bytes.bytes) (i : Z) : M Z :=
  let len := Z.of_nat (length bs) in
  let j := if i <? 0 then i + len else i in
  if (0 <=? j) && (j <? len)
  then ret (Bytes.to_Z (nth (Z.to_nat j) bs x00))
  else raise IndexError.

(** [a // b] with [b] an [int], on the reading in whole seconds: the
    exact quotient, which is what the float operation of line 64 gives
    for readings below 2^53. *)
Definition floordiv (a b : Z) : M Z :=
  if b =? 0 then raise ZeroDivisionError else ret (a / b).

(** Truth value of an optional [str]: [None] and the empty string are
    false. *)
Definition truthy (s : option string) : bool :=
  match s with
  | None => false
  | Some s => negb (String.eqb s "")
  end.

(* ================================================================== *)
(** ** The methods of [SecureLoginSystem] *)

Definition hash_password (password : string) (salt : option string)
  : M (string * string) :=
  salt <- match salt with
          | Some s => if truthy salt then ret s else token_hex 16
          | None => token_hex 16
          end ;;
  let hash_obj := Hashlib.SHA256.digest (encode salt ++ encode password) in
  let password_hash := Hashlib.hex hash_obj in
  ret (password_hash, salt).

Definition register_user (username password : string) : M bool :=
  existing <- select_user username ;;
  match existing with
  | Some _ => print "Username already exists!" ;; ret false
  | None =>
      '(password_hash, salt) <- hash_password password None ;;
      insert_user username password_hash salt ;;
      print ("User " ++ username ++ " registered successfully!")%string ;;
      ret true
  end.

Definition generate_totp_code (secret : option string) (time_step : Z)
  : M string :=
  now <- time_time ;;
  counter <- floordiv now time_step ;;
  counter_bytes <- lift (Struct.pack_Q counter) ;;
  key <- match secret with
         | Some s => lift (Base64.b32decode s true)
         | None => raise TypeError
         end ;;
  let h := Hmac.sha1 key counter_bytes in
  last <- getitem h (-1) ;;
  let offset := Z.land last 0x0F in
  h0 <- getitem h offset ;;
  h1 <- getitem h (offset + 1) ;;
  h2 <- getitem h (offset + 2) ;;
  h3 <- getitem h (offset + 3) ;;
  let binary :=
    Z.lor (Z.lor (Z.lor (Z.shiftl (Z.land h0 0x7F) 24)
                        (Z.shiftl (Z.land h1 0xFF) 16))
                 (Z.shiftl (Z.land h2 0xFF) 8))
          (Z.land h3 0xFF) in
  ret (PyStr.zfill 6 (PyStr.str (binary mod 1000000))).

Definition verify_totp (secret : option string) (code : string) : M bool :=
  generated <- generate_totp_code secret 30 ;;
  ret (String.eqb generated code).

Definition enable_2fa (username : string) : M (option string) :=
  cur <- get_current_user ;;
  if negb (truthy cur)
     || negb (match cur with Some c => String.eqb c username | None => false end)
  then print "You must be logged in to enable 2FA." ;; ret None
  else
    raw <- urandom 10 ;;
    let secret := string_of_list_byte (Base64.b32encode raw) in
    update_two_factor secret username ;;
    print "Two-factor authentication enabled!" ;;
    print ("Your secret key: " ++ secret)%string ;;
    print "Please store this key securely." ;;
    code <- generate_totp_code (Some secret) 30 ;;
    print ("Your current TOTP code: " ++ code)%string ;;
    print "This code will change every 30 seconds." ;;
    ret (Some secret).

Definition login (username password : string) (totp_code : option string)
  : M PyVal :=
  user_data <- select_user username ;;
  match user_data with
  | None => print "Invalid username or password." ;; ret (PyBool false)
  | Some row =>
      let success :=
        print ("Login successful! Welcome, " ++ username ++ "!")%string ;;
        set_current_user (Some username) ;;
        ret (PyBool true) in
      '(calculated_hash, _) <-
         hash_password password (Some (password_salt row)) ;;
      if negb (String.eqb calculated_hash (password_hash row))
      then print "Invalid username or password." ;; ret (PyBool false)
      else if negb (two_factor_enabled row =? 0)
      then
        match totp_code with
        | Some code =>
            if truthy totp_code
            then
              ok <- verify_totp (two_factor_secret row) code ;;
              if negb ok
              then print "Invalid two-factor code." ;; ret (PyBool false)
              else success
            else print "Two-factor authentication is required." ;;
                 ret (PyStr "2FA_REQUIRED")
        | None => print "Two-factor authentication is required." ;;
                  ret (PyStr "2FA_REQUIRED")
        end
      else success
  end.

Definition logout : M unit :=
  cur <- get_current_user ;;
  match cur with
  | Some u =>
      if truthy cur
      then print ("Goodbye, " ++ u ++ "!")%string ;; set_current_user None
      else print "No user is currently logged in."
  | None => print "No user is currently logged in."
  end.

(* ================================================================== *)
(** ** The one-time-code algorithm in the words of the specification *)

Module TotpSpec.

Import Bytes.

(** [currentCounter]: [floor (unixTimeSeconds / timeStepSeconds)]. *)
Definition currentCounter (t timeStep : Z) : Z := t / timeStep.

(** Step 1: the counter as an 8-byte big-endian unsigned integer. *)
Definition counterBytes (counter : Z) : bytes := be_bytes 8 counter.

(** Step 2: [mac = HMAC-SHA1(key = secret, message = counterBytes)]. *)
Definition mac (secret : bytes) (t : Z) : bytes :=
  Hmac.sha1 secret (counterBytes (currentCounter t 30)).

(** Step 3: [offset = mac[19] & 0x0F]. *)
Definition offset (m : bytes) : Z := Z.land (to_Z (nth 19 m x00)) 0x0F.

(** Step 3: the four bytes [mac[offset..offset+4]], the first one masked
    with [0x7F], read as a big-endian unsigned integer. *)
Definition binCode (m : bytes) : Z :=
  match firstn 4 (skipn (Z.to_nat (offset m)) m) with
  | b0 :: rest => be_int (of_Z (Z.land (to_Z b0) 0x7F) :: rest)
  | [] => 0
  end.

(** Step 4: [binCode mod 1_000_000] on exactly six decimal digits. *)
Definition generate (secret : bytes) (t : Z) : string :=
  PyStr.fixed_digits 6 (binCode (mac secret t) mod 1000000) EmptyString.

End TotpSpec.

(* ================================================================== *)
(** ** Notions used to state the properties *)

(** The password check of [login]: the digest is recomputed with the
    stored salt and compared with the stored digest. *)
Definition check_password (password : string) (row : Row) : M bool :=
  '(calculated_hash, _) <-
     hash_password password (Some (password_salt row)) ;;
  ret (String.eqb calculated_hash (password_hash row)).

(** The digest of [salt || password] as [hash_password] renders it. *)
Definition salted_digest (salt password : string) : string :=
  Hashlib.hex (Hashlib.SHA256.digest (encode salt ++ encode password)).

(** The state after [print(line)]. *)
Definition printed (line : string) (w : World) : World :=
  mkWorld (users w) (current_user w) (stdout w ++ [line]) (clock w)
          (entropy w).

(** The state after the successful end of [login]. *)
Definition logged_in (name : string) (w : World) : World :=
  let w' := printed ("Login successful! Welcome, " ++ name ++ "!")%string w in
  mkWorld (users w') (Some name) (stdout w') (clock w') (entropy w').

(** The state after [n] bytes have been drawn from the entropy source. *)
Definition drawn (n : nat) (w : World) : World :=
  mkWorld (users w) (current_user w) (stdout w) (clock w)
          (fun i => entropy w (n + i)%nat).

(** The row that [login] fetches for a user name. *)
Definition fetch (name : string) (w : World) : option Row :=
  find (fun r => String.eqb (username r) name) (users w).

(** Base32 text in the sense of RFC 4648 with either case of letters: a
    whole number of 8-character groups, digits of the alphabet, and at the
    end no padding or 1, 3, 4 or 6 padding characters. *)
Definition is_b32_digit (c : byte) : bool :=
  let n := Bytes.to_Z c in
  ((65 <=? n) && (n <=? 90)) || ((97 <=? n) && (n <=? 122))
  || ((50 <=? n) && (n <=? 55)).

(** The bytes that are digits of the decoding table. *)
Definition has_value (c : byte) : bool :=
  match Base64.b32rev c with Some _ => true | None => false end.

Definition valid_base32 (s : string) : bool :=
  let bs := list_byte_of_string s in
  let body := Base64.rstrip_pad bs in
  (length bs mod 8 =? 0)%nat
  && forallb is_b32_digit body
  && Base64.pad_ok (length bs - length body).

(** The exceptions that [base64.b32decode] raises on text it cannot
    decode: [ValueError] and its subclass [binascii.Error]. *)
Definition is_decode_error (e : exn) : bool :=
  match e with
  | ValueError | BinasciiError _ => true
  | _ => false
  end.

(** A submitted code of the wrong length or with a character that is not
    a decimal digit. *)
Definition malformed (code : string) : bool :=
  negb ((String.length code =? 6)%nat && PyStr.all_digits code).

(** Lowercase hexadecimal text. *)
Definition is_lower_hex (c : ascii) : bool :=
  let n := Z.of_N (N_of_ascii c) in
  ((48 <=? n) && (n <=? 57)) || ((97 <=? n) && (n <=? 102)).

Fixpoint lower_hex (s : string) : bool :=
  match s with
  | EmptyString => true
  | String c r => is_lower_hex c && lower_hex r
  end.

(** The salt that [hash_password] draws when it is given none. *)
Definition fresh_salt (w : World) : string :=
  Hashlib.hex (map (entropy w) (seq 0 16)).

(** The clock readings for which the counter fits an unsigned 64-bit
    integer. *)
Definition clock_in_range (w : World) : Prop := 0 <= clock w < 30 * 2 ^ 64.

(** ** A concrete run

    An entropy source that delivers the bytes 0, 1, 2, ...; a fresh object
    on an empty table, read at second 59; the same after "alice" has
    registered; and after she has logged in, enabled the second factor and
    logged out. *)
Definition tape0 (i : nat) : byte := Bytes.of_Z (Z.of_nat i).

Definition world0 : World := mkWorld [] None [] 59 tape0.

Definition alice_world : World :=
  snd (register_user "alice" "Secret123!" world0).

Definition alice_2fa_world : World :=
  snd ((login "alice" "Secret123!" None ;; enable_2fa "alice" ;; logout)
         alice_world).

(** The same clock one second into the window of second 59. *)
Definition world31 : World := mkWorld [] None [] 31 tape0.

(** The row of "alice" after registration. *)
Definition alice_row : Row :=
  mkRow 1 "alice"
        "10d86d128dd21c697816d2328ef696f4bfb2db0129aef5ee1a6a2eafc24ba653"
        "000102030405060708090a0b0c0d0e0f" 0 None.

(** The secret of the first test vector of RFC 6238, as base32 text. *)
Definition rfc6238_secret : string := "GEZDGNBVGY3TQOJQGEZDGNBVGY3TQOJQ".

(* ================================================================== *)
(** ** The remaining methods and the runs of the object *)

(** [len(s)] of a [str]: its number of code points, that is of the bytes
    of its UTF-8 text that are not continuation bytes. *)
Fixpoint py_len (s : string) : nat :=
  match s with
  | EmptyString => O
  | String c r =>
      if Z.land (Z.of_N (N_of_ascii c)) 0xC0 =? 0x80
      then py_len r else S (py_len r)
  end.

(** [s * n] on a [str]. *)
Fixpoint str_repeat (s : string) (n : nat) : string :=
  match n with
  | O => EmptyString
  | S k => (s ++ str_repeat s k)%string
  end.

(** [format(s, '<width')]: spaces on the right up to [width] code points,
    nothing cut. *)
Definition ljust (width : nat) (s : string) : string :=
  (s ++ str_repeat " " (width - py_len s))%string.

(** [SELECT id, username, two_factor_enabled FROM users] and
    [fetchall()]. *)
Definition select_all : M (list (Z * string * Z)) :=
  fun w => (Ok (map (fun r => (row_id r, username r, two_factor_enabled r))
                    (users w)), w).

(** The loop [for row in rows: print(...)] of [display_users]. *)
Fixpoint print_rows (rows : list (Z * string * string)) : M unit :=
  match rows with
  | [] => ret tt
  | (id, name, flag) :: rest =>
      print (ljust 5 (PyStr.str id) ++ ljust 20 name
             ++ ljust 10 (if String.eqb flag "Yes" then "Yes" else "No"))%string ;;
      print_rows rest
  end.

Definition display_users : M unit :=
  fetched <- select_all ;;
  match fetched with
  | [] => print "No users registered."
  | _ :: _ =>
      let rows :=
        map (fun user : Z * string * Z =>
               let '(id, name, enabled) := user in
               (id, name, if negb (enabled =? 0) then "Yes" else "No"))
            fetched in
      print (String (ascii_of_nat 10) "Registered Users:") ;;
      print (str_repeat "-" 40) ;;
      print (ljust 5 "ID" ++ ljust 20 "Username" ++ ljust 10 "2FA Enabled")%string ;;
      print (str_repeat "-" 40) ;;
      print_rows rows
  end.

(** [__init__] on a new database file: [create_tables] makes the empty
    table and [current_user] is [None]; the clock and the entropy source
    are those of the machine. *)
Definition init (t : Z) (e : nat -> byte) : World := mkWorld [] None [] t e.

(** A call of a method of the object, or the passing of time. *)
Inductive call : Type :=
| CallRegister (name password : string)
| CallLogin (name password : string) (code : option string)
| CallEnable2fa (name : string)
| CallLogout
| CallDisplayUsers
| Wait (t : Z).

(** The state after a call; an exception leaves the state as it was when
    it was raised. *)
Definition perform (w : World) (c : call) : World :=
  match c with
  | CallRegister u p => snd (register_user u p w)
  | CallLogin u p code => snd (login u p code w)
  | CallEnable2fa u => snd (enable_2fa u w)
  | CallLogout => snd (logout w)
  | CallDisplayUsers => snd (display_users w)
  | Wait t => mkWorld (users w) (current_user w) (stdout w) t (entropy w)
  end.

(** The states that a fresh object reaches by calls of its methods. *)
Definition reachable (w : World) : Prop :=
  exists t e calls, w = fold_left perform calls (init t e).

(** What every stored row satisfies: a salt of 32 lowercase hexadecimal
    digits, a digest of 64, and either no second factor or a second factor
    with a base32 secret of 16 characters. *)
Definition row_ok (r : Row) : Prop :=
  String.length (password_salt r) = 32%nat
  /\ lower_hex (password_salt r) = true
  /\ String.length (password_hash r) = 64%nat
  /\ lower_hex (password_hash r) = true
  /\ ((two_factor_enabled r = 0 /\ two_factor_secret r = None)
      \/ (two_factor_enabled r = 1 /\
          exists s, two_factor_secret r = Some s
                    /\ String.length s = 16%nat /\ valid_base32 s = true)).

Definition state_ok (w : World) : Prop :=
  NoDup (map username (users w))
  /\ Forall row_ok (users w)
  /\ (forall u, current_user w = Some u -> fetch u w <> None).

(** The secret that [enable_2fa] issues from a state. *)
Definition issued_secret (w : World) : string :=
  string_of_list_byte (Base64.b32encode (map (entropy w) (seq 0 10))).

(** The row of a user once the second factor is enabled with a secret. *)
Definition with_two_factor (secret : string) (r : Row) : Row :=
  mkRow (row_id r) (username r) (password_hash r) (password_salt r)
        1 (Some secret).

(** [s.upper()] on the ASCII letters of a text. *)
Definition upper_text (s : string) : string :=
  string_of_list_byte (map Base64.upper_byte (list_byte_of_string s)).

(** The state after [register_user] has stored a new user. *)
Definition registered (name password : string) (w : World) : World :=
  printed ("User " ++ name ++ " registered successfully!")%string
    (mkWorld (users w ++ [mkRow (next_rowid (users w)) name
                                (salted_digest (fresh_salt w) password)
                                (fresh_salt w) 0 None])
             (current_user w) (stdout w) (clock w)
             (fun i => entropy w (16 + i)%nat)).

(** The table after [enable_2fa] has stored a secret for a user. *)
Definition two_factor_rows (secret name : string) (rows : list Row)
  : list Row :=
  map (fun r => if String.eqb (username r) name
                then with_two_factor secret r else r) rows.

(** The state after [enable_2fa] has run to its end. *)
Definition enabled (name : string) (w : World) : World :=
  let secret := issued_secret w in
  let code := TotpSpec.generate (map (entropy w) (seq 0 10)) (clock w) in
  printed "This code will change every 30 seconds."
    (printed ("Your current TOTP code: " ++ code)%string
       (printed "Please store this key securely."
          (printed ("Your secret key: " ++ secret)%string
             (printed "Two-factor authentication enabled!"
                (mkWorld (two_factor_rows secret name (users w))
                         (current_user w) (stdout w) (clock w)
                         (fun i => entropy w (10 + i)%nat)))))).

(** What [display_users] reads of a row. *)
Definition public (r : Row) : Z * string * bool :=
  (row_id r, username r, negb (two_factor_enabled r =? 0)).

(** The concrete run once "alice" has logged in. *)
Definition alice_logged_world : World :=
  snd (login "alice" "Secret123!" None alice_world).

(** A table that shows like that of [alice_world] and holds other
    credentials. *)
Definition masked_world : World :=
  mkWorld [mkRow 1 "alice" "" "" 0 (Some "hidden")] (Some "alice") [] 0 tape0.

(** The line that [display_users] prints for a row of its list [rows]. *)
Definition row_line (row : Z * string * string) : string :=
  let '(id, name, flag) := row in
  (ljust 5 (PyStr.str id) ++ ljust 20 name
   ++ ljust 10 (if String.eqb flag "Yes" then "Yes" else "No"))%string.

(** The lines that [display_users] prints, from what it reads of the
    rows. *)
Definition display_lines (pub : list (Z * string * bool)) : list string :=
  match pub with
  | [] => ["No users registered."]
  | _ :: _ =>
      [String (ascii_of_nat 10) "Registered Users:";
       str_repeat "-" 40;
       (ljust 5 "ID" ++ ljust 20 "Username" ++ ljust 10 "2FA Enabled")%string;
       str_repeat "-" 40]
      ++ map (fun x : Z * string * bool =>
                let '(id, name, enabled) := x in
                row_line (id, name, if enabled then "Yes" else "No"))
             pub
  end.

(** The state after some lines have been printed. *)
Definition printed_all (lines : list string) (w : World) : World :=
  mkWorld (users w) (current_user w) (stdout w ++ lines) (clock w)
          (entropy w).

(* ================================================================== *)
(** ** Passwords that are not text *)

(** [str.encode()] on a [str] given by its code points: UTF-8, with
    [UnicodeEncodeError] for a surrogate. *)
Module Utf8.

Import Bytes.

Definition is_surrogate (c : Z) : bool := (0xD800 <=? c) && (c <=? 0xDFFF).

(** The bytes of a code point; a number that is not a code point is in no
    [str], and is refused with [ValueError] as [chr] does. *)
Definition encode_code_point (c : Z) : result bytes :=
  if (c <? 0) || (0x10FFFF <? c) then Raise ValueError
  else if c <? 0x80 then Ok [of_Z c]
  else if c <? 0x800
  then Ok [of_Z (Z.lor 0xC0 (Z.shiftr c 6));
           of_Z (Z.lor 0x80 (Z.land c 0x3F))]
  else if is_surrogate c then Raise UnicodeEncodeError
  else if c <? 0x10000
  then Ok [of_Z (Z.lor 0xE0 (Z.shiftr c 12));
           of_Z (Z.lor 0x80 (Z.land (Z.shiftr c 6) 0x3F));
           of_Z (Z.lor 0x80 (Z.land c 0x3F))]
  else Ok [of_Z (Z.lor 0xF0 (Z.shiftr c 18));
           of_Z (Z.lor 0x80 (Z.land (Z.shiftr c 12) 0x3F));
           of_Z (Z.lor 0x80 (Z.land (Z.shiftr c 6) 0x3F));
           of_Z (Z.lor 0x80 (Z.land c 0x3F))].

Fixpoint encode (s : list Z) : result bytes :=
  match s with
  | [] => Ok []
  | c :: r =>
      match encode_code_point c with
      | Ok bs =>
          match encode r with
          | Ok rest => Ok (bs ++ rest)
          | Raise e => Raise e
          end
      | Raise e => Raise e
      end
  end.

End Utf8.

(** [login] for a password that is any [str], given by its code points.
    A password that UTF-8 encodes is the text of its bytes.  One that it
    does not encode makes [password.encode()] raise at line 37, inside
    the call of [hash_password] at line 121: after the row has been
    fetched and, when the stored salt is empty, after a salt has been
    drawn at line 36; with no row fetched, [login] has returned at line
    116 before. *)
Definition login_str (username : string) (password : list Z)
           (totp_code : option string) : M PyVal :=
  match Utf8.encode password with
  | Ok bs => login username (string_of_list_byte bs) totp_code
  | Raise e =>
      user_data <- select_user username ;;
      match user_data with
      | None => print "Invalid username or password." ;; ret (PyBool false)
      | Some row =>
          (if truthy (Some (password_salt row))
           then ret EmptyString else token_hex 16) ;;
          raise e
      end
  end.

(** The clock readings for which the float floor division of line 64 is
    exact, so that the counter is [floor (t / 30)]. *)
Definition clock_exact (w : World) : Prop := 0 <= clock w < 2 ^ 53.

(** A clock at which the counter no longer fits 64 bits. *)
Definition world_late : World := mkWorld [] None [] (30 * 2 ^ 64) tape0.

(** The password that is the lone surrogate U+DC80. *)
Definition surrogate_password : list Z := [0xDC80].

Arguments Hashlib.SHA256.digest : simpl never.
Arguments Hashlib.SHA1.digest : simpl never.
Arguments Hmac.sha1 : simpl never.
Arguments TotpSpec.generate : simpl never.
Arguments salted_digest : simpl never.

(* ================================================================== *)
(** * Properties of the library models *)

Section BytesFacts.

Import Bytes.

Lemma to_Z_range (b : byte) : 0 <= to_Z b < 256.
Proof. unfold to_Z. pose proof (Byte.to_N_bounded b). lia. Qed.

Lemma be_bytes_length (n : nat) (z : Z) : length (be_bytes n z) = n.
Proof. induction n; simpl; congruence. Qed.

Lemma sha1_digest_length (msg : bytes) :
  length (Hashlib.SHA1.digest msg) = 20%nat.
Proof. reflexivity. Qed.

Lemma sha256_digest_length (msg : bytes) :
  length (Hashlib.SHA256.digest msg) = 32%nat.
Proof. reflexivity. Qed.

(** The MAC is 20 bytes long whatever the key and the message. *)
Lemma hmac_sha1_length (key msg : bytes) :
  length (Hmac.sha1 key msg) = 20%nat.
Proof. reflexivity. Qed.

Lemma hex_length (bs : bytes) :
  String.length (Hashlib.hex bs) = (2 * length bs)%nat.
Proof. induction bs; simpl; [reflexivity | rewrite IHbs; lia]. Qed.

Lemma land_15_range (x : Z) : 0 <= Z.land x 0x0F < 16.
Proof.
  change 0x0F with (Z.ones 4). rewrite Z.land_ones by lia.
  change (2 ^ 4) with 16. pose proof (Z.mod_pos_bound x 16 ltac:(lia)). lia.
Qed.

Lemma land_byte_id (x : Z) : 0 <= x < 256 -> Z.land x 0xFF = x.
Proof.
  intros H. change 0xFF with (Z.ones 8). rewrite Z.land_ones by lia.
  change (2 ^ 8) with 256. apply Z.mod_small. lia.
Qed.

Lemma land_7F_range (x : Z) : 0 <= Z.land x 0x7F < 128.
Proof.
  change 0x7F with (Z.ones 7). rewrite Z.land_ones by lia.
  change (2 ^ 7) with 128. pose proof (Z.mod_pos_bound x 128 ltac:(lia)). lia.
Qed.

Lemma lor_bound (n a b : Z) :
  0 <= n -> 0 <= a < 2 ^ n -> 0 <= b < 2 ^ n -> 0 <= Z.lor a b < 2 ^ n.
Proof.
  intros Hn Ha Hb.
  assert (H0 : 0 <= Z.lor a b) by (apply Z.lor_nonneg; lia).
  split; [exact H0 |].
  destruct (Z.eq_dec (Z.lor a b) 0) as [E | E]; [rewrite E; lia |].
  apply Z.log2_lt_pow2; [lia |].
  rewrite Z.log2_lor by lia.
  destruct (Z.eq_dec a 0) as [-> | Na], (Z.eq_dec b 0) as [-> | Nb].
  - simpl in E. congruence.
  - rewrite Z.max_r by (simpl; apply Z.log2_nonneg).
    apply Z.log2_lt_pow2; lia.
  - rewrite Z.max_l by (simpl; apply Z.log2_nonneg).
    apply Z.log2_lt_pow2; lia.
  - apply Z.max_lub_lt; apply Z.log2_lt_pow2; lia.
Qed.

Lemma shiftl_bound (a k n : Z) :
  0 <= k -> 0 <= n -> 0 <= a < 2 ^ n -> 0 <= Z.shiftl a k < 2 ^ (n + k).
Proof.
  intros Hk Hn Ha. rewrite Z.shiftl_mul_pow2 by lia.
  rewrite Z.pow_add_r by lia.
  assert (0 < 2 ^ k) by (apply Z.pow_pos_nonneg; lia). nia.
Qed.

(** Reading four bytes big-endian is the shift-and-or expression of the
    source. *)
Lemma be_int_4 (a b c d : byte) :
  be_int [a; b; c; d] =
  Z.lor (Z.lor (Z.lor (Z.shiftl (to_Z a) 24) (Z.shiftl (to_Z b) 16))
               (Z.shiftl (to_Z c) 8))
        (to_Z d).
Proof.
  unfold be_int. cbv [fold_left].
  rewrite Z.shiftl_0_l, Z.lor_0_l.
  rewrite !Z.shiftl_lor, !Z.shiftl_shiftl by lia.
  reflexivity.
Qed.

Lemma firstn4_skipn (A : Type) (d : A) (l : list A) (n : nat) :
  (n + 4 <= length l)%nat ->
  firstn 4 (skipn n l) =
  [nth n l d; nth (n + 1) l d; nth (n + 2) l d; nth (n + 3) l d].
Proof.
  revert l. induction n as [| n IH]; intros l H.
  - destruct l as [| a [| b [| c [| e l]]]]; simpl in H; try lia.
    reflexivity.
  - destruct l as [| a l]; simpl in H; [lia |].
    simpl. apply IH. lia.
Qed.

End BytesFacts.

(** From here on the digests are not unfolded by the tactics; they still
    compute. *)
Opaque Hashlib.SHA256.digest Hashlib.SHA1.digest.

Section DecimalFacts.

Import PyStr.

Lemma digit_cases (P : Z -> Prop) :
  P 0 -> P 1 -> P 2 -> P 3 -> P 4 -> P 5 -> P 6 -> P 7 -> P 8 -> P 9 ->
  forall d, 0 <= d < 10 -> P d.
Proof.
  intros. assert (d = 0 \/ d = 1 \/ d = 2 \/ d = 3 \/ d = 4 \/ d = 5 \/
                  d = 6 \/ d = 7 \/ d = 8 \/ d = 9) as E by lia.
  repeat (destruct E as [-> | E]; [assumption |]). subst. assumption.
Qed.

Lemma digit_is_digit (m : Z) : is_digit (digit (m mod 10)) = true.
Proof.
  apply (digit_cases (fun d => is_digit (digit d) = true));
    try reflexivity.
  apply Z.mod_pos_bound. lia.
Qed.

Lemma digit_not_sign (m : Z) :
  (Ascii.eqb (digit (m mod 10)) "+" || Ascii.eqb (digit (m mod 10)) "-")%bool
  = false.
Proof.
  apply (digit_cases
           (fun d => (Ascii.eqb (digit d) "+" || Ascii.eqb (digit d) "-")%bool
                     = false)); try reflexivity.
  apply Z.mod_pos_bound. lia.
Qed.

Lemma zeros_app_cons (j : nat) (s : string) :
  (zeros j ++ String "0" s)%string = String "0" (zeros j ++ s)%string.
Proof. induction j; simpl; [reflexivity | rewrite IHj; reflexivity]. Qed.

Lemma zeros_length (j : nat) : String.length (zeros j) = j.
Proof. induction j; simpl; congruence. Qed.

Lemma string_app_length (s t : string) :
  String.length (s ++ t)%string = (String.length s + String.length t)%nat.
Proof. induction s; simpl; congruence. Qed.

Lemma fixed_digits_zero (k : nat) (acc : string) :
  fixed_digits k 0 acc = (zeros k ++ acc)%string.
Proof.
  revert acc. induction k as [| k IH]; intros acc; simpl; [reflexivity |].
  change (0 / 10) with 0. change (digit (0 mod 10)) with "0"%char.
  rewrite IH. apply zeros_app_cons.
Qed.

Lemma fixed_digits_length (k : nat) (n : Z) (acc : string) :
  String.length (fixed_digits k n acc) = (k + String.length acc)%nat.
Proof.
  revert n acc. induction k as [| k IH]; intros n acc; simpl;
    [reflexivity |].
  rewrite IH. simpl. lia.
Qed.

Lemma fixed_digits_all_digits (k : nat) (n : Z) (acc : string) :
  all_digits acc = true -> all_digits (fixed_digits k n acc) = true.
Proof.
  revert n acc. induction k as [| k IH]; intros n acc H; simpl;
    [exact H |].
  apply IH. simpl. rewrite digit_is_digit. exact H.
Qed.

(** With enough fuel, [digits] is [fixed_digits] without its leading
    zeros. *)
Lemma digits_fixed (k : nat) :
  forall (f : nat) (n : Z) (acc : string),
    (1 <= k)%nat -> 0 <= n < 10 ^ Z.of_nat k -> n < 2 ^ Z.of_nat (S f) ->
    exists z : nat,
      fixed_digits k n acc = (zeros z ++ digits (S f) n acc)%string /\
      (z + String.length (digits (S f) n acc)
       = k + String.length acc)%nat.
Proof.
  induction k as [| k IH]; intros f n acc Hk Hn Hf; [lia |].
  cbn [fixed_digits digits].
  destruct (n / 10 =? 0) eqn:E.
  - apply Z.eqb_eq in E. rewrite E, fixed_digits_zero.
    exists k. split; [reflexivity |]. simpl. lia.
  - apply Z.eqb_neq in E.
    assert (Hq : 1 <= n / 10) by
      (pose proof (Z.div_pos n 10 ltac:(lia) ltac:(lia)); lia).
    assert (Hn10 : 10 <= n) by
      (destruct (Z_lt_le_dec n 10) as [L | L]; [| exact L];
       rewrite Z.div_small in Hq by lia; lia).
    destruct k as [| k]; [simpl in Hn; lia |].
    destruct f as [| f]; [simpl in Hf; lia |].
    destruct (IH f (n / 10) (String (digit (n mod 10)) acc)) as [z [Hz Hl]].
    + lia.
    + split; [lia |]. apply Z.div_lt_upper_bound; [lia |].
      rewrite <- Z.pow_succ_r by lia.
      replace (Z.succ (Z.of_nat (S k))) with (Z.of_nat (S (S k))) by lia.
      lia.
    + apply Z.div_lt_upper_bound; [lia |].
      replace (Z.of_nat (S (S f))) with (Z.succ (Z.of_nat (S f))) in Hf
        by lia.
      rewrite Z.pow_succ_r in Hf by lia. lia.
    + exists z. split; [exact Hz |]. rewrite Hl. simpl. lia.
Qed.

Lemma digits_head (f : nat) :
  forall (n : Z) (acc : string),
  exists m r, digits (S f) n acc = String (digit (m mod 10)) r.
Proof.
  induction f as [| f IH]; intros n acc.
  - simpl. destruct (n / 10 =? 0); eauto.
  - cbn [digits]. destruct (n / 10 =? 0); [eauto |].
    apply (IH (n / 10)).
Qed.

(** [str(n).zfill(k)] is the rendering of [n] on exactly [k] digits when
    [n] has at most [k] digits. *)
Lemma zfill_str (k : nat) (n : Z) :
  (1 <= k)%nat -> 0 <= n < 10 ^ Z.of_nat k ->
  zfill k (str n) = fixed_digits k n EmptyString.
Proof.
  intros Hk Hn. unfold str.
  destruct (n <? 0) eqn:E; [apply Z.ltb_lt in E; lia | clear E].
  set (f := Z.to_nat (Z.log2 n)).
  assert (Hf : n < 2 ^ Z.of_nat (S f)).
  { subst f. rewrite Nat2Z.inj_succ, Z2Nat.id by apply Z.log2_nonneg.
    destruct (Z.eq_dec n 0) as [-> | N]; [reflexivity |].
    apply Z.log2_spec. lia. }
  destruct (digits_fixed k f n EmptyString Hk Hn Hf) as [z [Hz Hl]].
  destruct (digits_head f n EmptyString) as [m [r Hd]].
  rewrite Hz. unfold zfill. rewrite Hd in *.
  rewrite digit_not_sign.
  replace (k - String.length (String (digit (m mod 10)) r))%nat with z
    by (simpl in Hl |- *; lia).
  reflexivity.
Qed.

Lemma zfill_str_length (k : nat) (n : Z) :
  (1 <= k)%nat -> 0 <= n < 10 ^ Z.of_nat k ->
  String.length (zfill k (str n)) = k.
Proof.
  intros Hk Hn. rewrite zfill_str by assumption.
  rewrite fixed_digits_length. simpl. lia.
Qed.

Lemma zfill_str_all_digits (k : nat) (n : Z) :
  (1 <= k)%nat -> 0 <= n < 10 ^ Z.of_nat k ->
  all_digits (zfill k (str n)) = true.
Proof.
  intros Hk Hn. rewrite zfill_str by assumption.
  apply fixed_digits_all_digits. reflexivity.
Qed.

End DecimalFacts.

(* ================================================================== *)
(** * Properties of the methods *)

Lemma of_Z_to_Z (z : Z) : 0 <= z < 256 -> Bytes.to_Z (Bytes.of_Z z) = z.
Proof.
  intros H. unfold Bytes.of_Z, Bytes.to_Z.
  rewrite Z.mod_small by lia.
  destruct (Byte.of_N (Z.to_N z)) as [b |] eqn:E.
  - apply Byte.to_of_N in E. rewrite E. lia.
  - apply Byte.of_N_None_iff in E. lia.
Qed.

Section Getitem.

Variable bs : Bytes.bytes.
Hypothesis Hlen : length bs = 20%nat.

Lemma getitem_last (w : World) :
  getitem bs (-1) w = (Ok (Bytes.to_Z (nth 19 bs x00)), w).
Proof. unfold getitem. rewrite Hlen. reflexivity. Qed.

Lemma getitem_at (i : Z) (w : World) :
  0 <= i < 20 ->
  getitem bs i w = (Ok (Bytes.to_Z (nth (Z.to_nat i) bs x00)), w).
Proof.
  intros H. unfold getitem. rewrite Hlen.
  change (Z.of_nat 20) with 20.
  replace (i <? 0) with false by (symmetry; apply Z.ltb_ge; lia).
  replace ((0 <=? i) && (i <? 20))%bool with true; [reflexivity |].
  symmetry. apply andb_true_intro.
  split; [apply Z.leb_le | apply Z.ltb_lt]; lia.
Qed.

End Getitem.

(** The integer assembled by the source from the MAC is the [binCode] of
    the specification. *)
Lemma binary_is_binCode (m : Bytes.bytes) :
  length m = 20%nat ->
  let o := Z.land (Bytes.to_Z (nth 19 m x00)) 0x0F in
  let at_ i := Bytes.to_Z (nth (Z.to_nat i) m x00) in
  Z.lor (Z.lor (Z.lor (Z.shiftl (Z.land (at_ o) 0x7F) 24)
                      (Z.shiftl (Z.land (at_ (o + 1)) 0xFF) 16))
               (Z.shiftl (Z.land (at_ (o + 2)) 0xFF) 8))
        (Z.land (at_ (o + 3)) 0xFF)
  = TotpSpec.binCode m.
Proof.
  intros Hlen o at_. unfold TotpSpec.binCode, TotpSpec.offset. fold o.
  pose proof (land_15_range (Bytes.to_Z (nth 19 m x00))) as Ho. fold o in Ho.
  rewrite (firstn4_skipn _ x00) by (rewrite Hlen; lia).
  rewrite be_int_4, of_Z_to_Z
    by (pose proof (land_7F_range (Bytes.to_Z (nth (Z.to_nat o) m x00))); lia).
  subst at_. cbv beta.
  rewrite !land_byte_id by apply to_Z_range.
  replace (Z.to_nat (o + 1)) with (Z.to_nat o + 1)%nat by lia.
  replace (Z.to_nat (o + 2)) with (Z.to_nat o + 2)%nat by lia.
  replace (Z.to_nat (o + 3)) with (Z.to_nat o + 3)%nat by lia.
  reflexivity.
Qed.

Lemma binCode_range (m : Bytes.bytes) :
  length m = 20%nat -> 0 <= TotpSpec.binCode m < 2 ^ 31.
Proof.
  intros Hlen. rewrite <- (binary_is_binCode m Hlen). cbv zeta.
  set (o := Z.land _ 0x0F).
  set (a := Bytes.to_Z (nth (Z.to_nat o) m x00)).
  set (b := Bytes.to_Z (nth (Z.to_nat (o + 1)) m x00)).
  set (c := Bytes.to_Z (nth (Z.to_nat (o + 2)) m x00)).
  set (d := Bytes.to_Z (nth (Z.to_nat (o + 3)) m x00)).
  pose proof (land_7F_range a) as Ha.
  pose proof (to_Z_range (nth (Z.to_nat (o + 1)) m x00)) as Hb. fold b in Hb.
  pose proof (to_Z_range (nth (Z.to_nat (o + 2)) m x00)) as Hc. fold c in Hc.
  pose proof (to_Z_range (nth (Z.to_nat (o + 3)) m x00)) as Hd. fold d in Hd.
  rewrite !land_byte_id by assumption.
  pose proof (shiftl_bound (Z.land a 0x7F) 24 7 ltac:(lia) ltac:(lia) Ha) as Sa.
  pose proof (shiftl_bound b 16 8 ltac:(lia) ltac:(lia) Hb) as Sb.
  pose proof (shiftl_bound c 8 8 ltac:(lia) ltac:(lia) Hc) as Sc.
  change (2 ^ (7 + 24)) with (2 ^ 31) in Sa.
  change (2 ^ (8 + 16)) with (2 ^ 24) in Sb.
  change (2 ^ (8 + 8)) with (2 ^ 16) in Sc.
  repeat apply lor_bound; lia.
Qed.

Lemma pack_counter (t : Z) :
  0 <= t < 30 * 2 ^ 64 ->
  Struct.pack_Q (t / 30) = Ok (TotpSpec.counterBytes (t / 30)).
Proof.
  intros H. unfold Struct.pack_Q.
  assert (0 <= t / 30 < 2 ^ 64) as [L U].
  { split; [apply Z.div_pos; lia | apply Z.div_lt_upper_bound; lia]. }
  apply Z.leb_le in L. apply Z.ltb_lt in U. rewrite L, U. reflexivity.
Qed.

(** What [generate_totp_code] does once the secret text has been decoded
    to the key [key]. *)
Lemma generate_totp_code_decoded (secret : string) (key : Bytes.bytes)
      (w : World) :
  Base64.b32decode secret true = Ok key ->
  clock_in_range w ->
  generate_totp_code (Some secret) 30 w
  = (Ok (TotpSpec.generate key (clock w)), w).
Proof.
  intros Hkey Hclock.
  unfold generate_totp_code, bind, time_time, floordiv, lift, ret.
  change (30 =? 0) with false. cbv beta iota.
  rewrite (pack_counter _ Hclock), Hkey.
  fold (TotpSpec.currentCounter (clock w) 30).
  fold (TotpSpec.mac key (clock w)). unfold TotpSpec.generate.
  set (m := TotpSpec.mac key (clock w)).
  assert (Hm : length m = 20%nat) by apply hmac_sha1_length.
  clearbody m.
  rewrite (getitem_last m Hm).
  pose proof (land_15_range (Bytes.to_Z (nth 19 m x00))) as Ho.
  set (o := Z.land (Bytes.to_Z (nth 19 m x00)) 0x0F) in *.
  rewrite (getitem_at m Hm o) by lia.
  rewrite !(getitem_at m Hm) by lia.
  pose proof (binary_is_binCode m Hm) as Hb. cbv zeta in Hb. fold o in Hb.
  rewrite Hb.
  rewrite (zfill_str 6); [reflexivity | lia |].
  change (10 ^ Z.of_nat 6) with 1000000. apply Z.mod_pos_bound. lia.
Qed.

(** C3 (as stated) fails for a secret that is not base32 text and for a
    clock whose counter does not fit 64 bits: for the secret "abc" the
    method raises the decoding error, and for the secret of RFC 6238 at
    second 30 * 2^64 it raises [struct.error]; neither returns a code. *)
Lemma generate_totp_code_partial :
  generate_totp_code (Some "abc") 30 world0
  = (Raise (BinasciiError "Incorrect padding"), world0)
  /\ Base64.b32decode rfc6238_secret true
     = Ok (encode "12345678901234567890")
  /\ generate_totp_code (Some rfc6238_secret) 30 world_late
     = (Raise StructError, world_late).
Proof. repeat split; vm_compute; reflexivity. Qed.

(** C3 (as amended).  For a secret whose base32 text decodes to the key
    bytes and a clock reading below 2^53 seconds, where the floor division
    of line 64 is exact, [generate_totp_code] returns, without raising and
    without changing the state, the code that the steps of the
    specification give for that key: the counter [floor (t / 30)] on 8
    big-endian bytes, the 20-byte HMAC-SHA1 of the counter bytes under the
    key, the offset [mac[19] & 0x0F], the four bytes at the offset with
    the top bit masked read as a 31-bit big-endian integer, and that
    integer modulo 1000000 on exactly six decimal digits. *)
Theorem generate_totp_code_follows_hotp
        (secret : string) (key : Bytes.bytes) (w : World) :
  Base64.b32decode secret true = Ok key ->
  clock_exact w ->
  let m := TotpSpec.mac key (clock w) in
  generate_totp_code (Some secret) 30 w
  = (Ok (TotpSpec.generate key (clock w)), w)
  /\ TotpSpec.counterBytes (TotpSpec.currentCounter (clock w) 30)
     = Bytes.be_bytes 8 (clock w / 30)
  /\ length m = 20%nat
  /\ 0 <= TotpSpec.offset m < 16
  /\ 0 <= TotpSpec.binCode m < 2 ^ 31
  /\ String.length (TotpSpec.generate key (clock w)) = 6%nat
  /\ PyStr.all_digits (TotpSpec.generate key (clock w)) = true.
Proof.
  intros Hkey Hexact m.
  assert (Hclock : clock_in_range w).
  { unfold clock_exact in Hexact. unfold clock_in_range.
    change (2 ^ 53) with 9007199254740992 in Hexact.
    change (30 * 2 ^ 64) with 553402322211286548480. lia. }
  assert (Hm : length m = 20%nat) by apply hmac_sha1_length.
  split; [apply generate_totp_code_decoded; assumption |].
  split; [reflexivity |].
  split; [exact Hm |].
  split; [apply land_15_range |].
  split; [apply binCode_range; exact Hm |].
  split.
  - unfold TotpSpec.generate. rewrite fixed_digits_length. reflexivity.
  - unfold TotpSpec.generate. apply fixed_digits_all_digits. reflexivity.
Qed.

Lemma clock_in_range_counter (w : World) :
  clock_in_range w <-> 0 <= clock w / 30 < 2 ^ 64.
Proof.
  unfold clock_in_range. split; intros H.
  - split; [apply Z.div_pos; lia | apply Z.div_lt_upper_bound; lia].
  - destruct H as [L U]. split.
    + destruct (Z_lt_le_dec (clock w) 0) as [N | N]; [| exact N].
      assert (clock w / 30 < 0) by (apply Z.div_lt_upper_bound; lia). lia.
    + destruct (Z_lt_le_dec (clock w) (30 * 2 ^ 64)) as [N | N]; [exact N |].
      assert (2 ^ 64 <= clock w / 30) by (apply Z.div_le_lower_bound; lia).
      lia.
Qed.

(** [generate_totp_code] returns a code only when the counter fits 64 bits
    and the secret decodes; it never changes the state. *)
Lemma generate_totp_code_inv (secret : string) (w w1 : World) (code : string) :
  generate_totp_code (Some secret) 30 w = (Ok code, w1) ->
  exists key,
    Base64.b32decode secret true = Ok key /\ clock_in_range w /\
    code = TotpSpec.generate key (clock w) /\ w1 = w.
Proof.
  intros H.
  assert (Hr : clock_in_range w).
  { apply clock_in_range_counter.
    unfold generate_totp_code, bind, time_time, floordiv, lift, ret in H.
    change (30 =? 0) with false in H. cbv beta iota in H.
    unfold Struct.pack_Q in H.
    destruct ((0 <=? clock w / 30) && (clock w / 30 <? 2 ^ 64))%bool eqn:E;
      [| discriminate H].
    apply andb_prop in E. destruct E as [L U].
    apply Z.leb_le in L. apply Z.ltb_lt in U. lia. }
  destruct (Base64.b32decode secret true) as [key | e] eqn:K.
  - exists key. rewrite (generate_totp_code_decoded secret key w K Hr) in H.
    inversion H. subst. auto.
  - exfalso.
    unfold generate_totp_code, bind, time_time, floordiv, lift, ret in H.
    change (30 =? 0) with false in H. cbv beta iota in H.
    rewrite (pack_counter _ Hr), K in H. discriminate H.
Qed.

Lemma spec_generate_counter (key : Bytes.bytes) (t t' : Z) :
  t / 30 = t' / 30 -> TotpSpec.generate key t = TotpSpec.generate key t'.
Proof.
  intros H. unfold TotpSpec.generate, TotpSpec.mac, TotpSpec.currentCounter.
  rewrite H. reflexivity.
Qed.

(** C4.  A code generated from a secret is accepted by [verify_totp] for
    that secret whenever the verification reads a clock in the same
    30-second window; and for a secret that decodes, with the counter in
    range, a code is generated, so the round trip does take place. *)
Theorem totp_round_trip (secret : string) (w w' : World) :
  clock w / 30 = clock w' / 30 ->
  (forall code,
      fst (generate_totp_code (Some secret) 30 w) = Ok code ->
      verify_totp (Some secret) code w' = (Ok true, w'))
  /\ (forall key,
         Base64.b32decode secret true = Ok key -> clock_in_range w ->
         exists code,
           generate_totp_code (Some secret) 30 w = (Ok code, w) /\
           verify_totp (Some secret) code w' = (Ok true, w')).
Proof.
  intros Hc.
  assert (Hverify : forall key,
             Base64.b32decode secret true = Ok key -> clock_in_range w ->
             verify_totp (Some secret) (TotpSpec.generate key (clock w)) w'
             = (Ok true, w')).
  { intros key K Hr.
    assert (Hr' : clock_in_range w').
    { apply clock_in_range_counter. rewrite <- Hc.
      apply clock_in_range_counter. exact Hr. }
    unfold verify_totp, bind.
    rewrite (generate_totp_code_decoded secret key w' K Hr').
    unfold ret. rewrite (spec_generate_counter key _ _ Hc).
    rewrite String.eqb_refl. reflexivity. }
  split.
  - intros code H.
    destruct (generate_totp_code (Some secret) 30 w) as [r w1] eqn:G.
    simpl in H. subst r.
    destruct (generate_totp_code_inv _ _ _ _ G) as [key [K [Hr [-> _]]]].
    apply Hverify; assumption.
  - intros key K Hr. exists (TotpSpec.generate key (clock w)).
    split; [apply generate_totp_code_decoded; assumption |].
    apply Hverify; assumption.
Qed.

Lemma generated_code_shape (key : Bytes.bytes) (t : Z) :
  malformed (TotpSpec.generate key t) = false.
Proof.
  unfold malformed, TotpSpec.generate.
  rewrite fixed_digits_length, fixed_digits_all_digits by reflexivity.
  reflexivity.
Qed.

Lemma malformed_not_generated (code : string) (key : Bytes.bytes) (t : Z) :
  malformed code = true -> String.eqb (TotpSpec.generate key t) code = false.
Proof.
  intros H. destruct (String.eqb _ code) eqn:E; [| reflexivity].
  apply String.eqb_eq in E. subst code.
  rewrite generated_code_shape in H. discriminate H.
Qed.

(** *** Base32 text *)

Section Base32Facts.

Import Base64.

Lemma is_b32_digit_upper (c : byte) :
  is_b32_digit c = has_value (upper_byte c).
Proof. destruct c; reflexivity. Qed.

Lemma is_pad_upper (c : byte) : is_pad (upper_byte c) = is_pad c.
Proof. destruct c; reflexivity. Qed.

Lemma is_pad_eq (c : byte) : is_pad c = true -> c = pad_char.
Proof. destruct c; simpl; intros H; try discriminate H; reflexivity. Qed.

Lemma b32_digit_ascii (c : byte) : is_b32_digit c = true -> is_ascii c = true.
Proof. destruct c; simpl; intros H; try discriminate H; reflexivity. Qed.

Lemma lstrip_pad_map_upper (l : Bytes.bytes) :
  lstrip_pad (map upper_byte l) = map upper_byte (lstrip_pad l).
Proof.
  induction l as [| c l IH]; simpl; [reflexivity |].
  rewrite is_pad_upper. destruct (is_pad c); [exact IH | reflexivity].
Qed.

Lemma rstrip_pad_map_upper (l : Bytes.bytes) :
  rstrip_pad (map upper_byte l) = map upper_byte (rstrip_pad l).
Proof.
  unfold rstrip_pad. rewrite <- map_rev, lstrip_pad_map_upper, map_rev.
  reflexivity.
Qed.

Lemma lstrip_pad_split (l : Bytes.bytes) :
  exists k, l = repeat pad_char k ++ lstrip_pad l.
Proof.
  induction l as [| c l [k IH]]; [exists 0%nat; reflexivity |].
  simpl. destruct (is_pad c) eqn:E.
  - exists (S k). apply is_pad_eq in E. subst c. simpl. f_equal. exact IH.
  - exists 0%nat. reflexivity.
Qed.

Lemma rev_repeat_pad (k : nat) :
  rev (repeat pad_char k) = repeat pad_char k.
Proof.
  induction k as [| k IH]; [reflexivity |].
  simpl. rewrite IH. clear. induction k; simpl; congruence.
Qed.

(** A text is its stripped body followed by padding characters only. *)
Lemma rstrip_pad_split (l : Bytes.bytes) :
  exists k, l = rstrip_pad l ++ repeat pad_char k.
Proof.
  destruct (lstrip_pad_split (rev l)) as [k H].
  exists k. unfold rstrip_pad.
  rewrite <- (rev_repeat_pad k), <- rev_app_distr, <- H.
  symmetry. apply rev_involutive.
Qed.

Lemma concat_chunks_fuel (n : nat) :
  (0 < n)%nat ->
  forall (fuel : nat) (l : Bytes.bytes),
    (length l <= fuel)%nat -> concat (Bytes.chunks_fuel fuel n l) = l.
Proof.
  intros Hn. induction fuel as [| fuel IH]; intros l Hl.
  - destruct l; [reflexivity | simpl in Hl; lia].
  - destruct l as [| c l]; [reflexivity |].
    cbn [Bytes.chunks_fuel concat]. rewrite IH.
    + apply firstn_skipn.
    + rewrite length_skipn. cbn [length] in *. lia.
Qed.

Lemma concat_chunks (n : nat) (l : Bytes.bytes) :
  (0 < n)%nat -> concat (Bytes.chunks n l) = l.
Proof. intros Hn. apply concat_chunks_fuel; [exact Hn | lia]. Qed.

Lemma quantum_some (q : Bytes.bytes) :
  forall acc, (exists v, quantum q acc = Some v) <-> forallb has_value q = true.
Proof.
  induction q as [| c q IH]; intros acc; simpl.
  - split; eauto.
  - unfold has_value at 1. destruct (b32rev c) as [v |]; simpl.
    + apply IH.
    + split; [intros [v H]; discriminate H | discriminate].
Qed.

Lemma quanta_some (qs : list Bytes.bytes) :
  forall decoded acc,
    (exists r, quanta qs decoded acc = Some r)
    <-> forallb has_value (concat qs) = true.
Proof.
  induction qs as [| q qs IH]; intros decoded acc; simpl.
  - split; eauto.
  - rewrite forallb_app. destruct (quantum q 0) as [a |] eqn:Q.
    + assert (forallb has_value q = true) as ->
        by (apply (quantum_some q 0); eauto).
      apply IH.
    + split; [intros [r H]; discriminate H |].
      intros H. apply andb_prop in H. destruct H as [H _].
      apply (quantum_some q 0) in H. destruct H as [v H]. congruence.
Qed.

Lemma forallb_map_upper (l : Bytes.bytes) :
  forallb has_value (map upper_byte l) = forallb is_b32_digit l.
Proof.
  induction l as [| c l IH]; simpl; [reflexivity |].
  rewrite IH, is_b32_digit_upper. reflexivity.
Qed.

(** The texts that [b32decode] with case folding rejects are those that
    are not base32. *)
Lemma b32decode_invalid (s : string) :
  valid_base32 s = false ->
  exists e, is_decode_error e = true /\ b32decode s true = Raise e.
Proof.
  unfold valid_base32, b32decode. intros V.
  set (bs := list_byte_of_string s) in *.
  assert (R : forall e, is_decode_error e = true ->
                        exists e', is_decode_error e' = true
                                   /\ @Raise Bytes.bytes e = Raise e')
    by (intros e He; exists e; auto).
  destruct (forallb is_ascii bs); cbn [negb]; [| apply R; reflexivity].
  destruct (length bs mod 8 =? 0)%nat; cbn [negb]; [| apply R; reflexivity].
  rewrite rstrip_pad_map_upper, !length_map.
  destruct (quanta _ [] 0) as [[decoded acc] |] eqn:Q;
    [| apply R; reflexivity].
  destruct (pad_ok _) eqn:P; cbn [negb]; [| apply R; reflexivity].
  exfalso.
  assert (D : forallb is_b32_digit (rstrip_pad bs) = true).
  { rewrite <- forallb_map_upper.
    rewrite <- (concat_chunks 8 (map upper_byte (rstrip_pad bs))) by lia.
    apply (quanta_some _ [] 0). eauto. }
  rewrite D in V. rewrite andb_true_r in V.
  destruct (length bs mod 8 =? 0)%nat; discriminate.
Qed.

Lemma forallb_repeat_pad (k : nat) : forallb is_ascii (repeat pad_char k) = true.
Proof. induction k; simpl; auto. Qed.

Lemma b32decode_valid (s : string) :
  valid_base32 s = true -> exists key, b32decode s true = Ok key.
Proof.
  unfold valid_base32, b32decode. intros V.
  set (bs := list_byte_of_string s) in *.
  apply andb_prop in V. destruct V as [V P].
  apply andb_prop in V. destruct V as [L D].
  assert (A : forallb is_ascii bs = true).
  { destruct (rstrip_pad_split bs) as [k E]. rewrite E, forallb_app.
    rewrite forallb_repeat_pad, andb_true_r.
    apply forallb_forall. intros c Hc. apply b32_digit_ascii.
    rewrite forallb_forall in D. apply D. exact Hc. }
  rewrite A, L. cbn [negb].
  rewrite rstrip_pad_map_upper, !length_map, P. cbn [negb].
  assert (Q : exists r,
             quanta (Bytes.chunks 8 (map upper_byte (rstrip_pad bs))) [] 0
             = Some r).
  { apply quanta_some. rewrite concat_chunks by lia.
    rewrite forallb_map_upper. exact D. }
  destruct Q as [[decoded acc] Q]. rewrite Q.
  destruct (length bs - length (rstrip_pad bs))%nat; [eauto |].
  destruct decoded; eauto.
Qed.

(** [valid_base32] characterises exactly the texts that decode. *)
Lemma b32decode_ok_iff (s : string) :
  valid_base32 s = true <-> exists key, b32decode s true = Ok key.
Proof.
  split; [apply b32decode_valid |].
  intros [key K]. destruct (valid_base32 s) eqn:V; [reflexivity |].
  destruct (b32decode_invalid s V) as [e [_ E]]. congruence.
Qed.

End Base32Facts.

(** What [generate_totp_code] does when the secret text does not decode. *)
Lemma generate_totp_code_undecoded (secret : string) (e : exn) (w : World) :
  Base64.b32decode secret true = Raise e ->
  clock_in_range w ->
  generate_totp_code (Some secret) 30 w = (Raise e, w).
Proof.
  intros K Hr.
  unfold generate_totp_code, bind, time_time, floordiv, lift, ret.
  change (30 =? 0) with false. cbv beta iota.
  rewrite (pack_counter _ Hr), K. reflexivity.
Qed.

Lemma getitem_state (bs : Bytes.bytes) (i : Z) (w : World) :
  snd (getitem bs i w) = w.
Proof. unfold getitem, ret, raise. destruct (_ && _)%bool; reflexivity. Qed.

(** [generate_totp_code] never changes the state. *)
Lemma generate_totp_code_state (secret : option string) (w : World) :
  snd (generate_totp_code secret 30 w) = w.
Proof.
  unfold generate_totp_code, bind, time_time, floordiv, lift, ret, raise.
  change (30 =? 0) with false. cbv beta iota.
  destruct (Struct.pack_Q (clock w / 30)) as [cb | e]; [| reflexivity].
  destruct secret as [s |]; [| reflexivity].
  destruct (Base64.b32decode s true) as [key | e]; [| reflexivity].
  cbv zeta. generalize (Hmac.sha1 key cb). intros h.
  repeat match goal with
         | |- context [getitem ?b ?i ?v] =>
             let r := fresh "r" in
             let v' := fresh "v" in
             let E := fresh "E" in
             pose proof (getitem_state b i v) as E;
             destruct (getitem b i v) as [r v'];
             cbn [snd] in E; subst v'; destruct r; [| reflexivity]
         end.
  reflexivity.
Qed.

Lemma verify_totp_state (secret : option string) (code : string) (w : World) :
  snd (verify_totp secret code w) = w.
Proof.
  unfold verify_totp, bind, ret.
  pose proof (generate_totp_code_state secret w) as G.
  destruct (generate_totp_code secret 30 w) as [[c | e] w1]; exact G.
Qed.

(** C9 (as stated) fails for a secret that is not base32 text:
    [verify_totp] raises on the malformed codes "abcdef" and "12345"
    instead of returning [False]. *)
Lemma verify_totp_raises_on_bad_secret :
  verify_totp (Some "abc") "abcdef" world0
  = (Raise (BinasciiError "Incorrect padding"), world0)
  /\ verify_totp (Some "abc") "12345" world0
     = (Raise (BinasciiError "Incorrect padding"), world0)
  /\ malformed "abcdef" = true /\ malformed "12345" = true.
Proof. repeat split; vm_compute; reflexivity. Qed.

(** C9 (as amended).  For a secret whose base32 text decodes and a clock
    whose counter fits 64 bits, [verify_totp] returns [False], without
    raising and without changing the state, for every submitted code that
    has not exactly six characters or has a character that is not a
    decimal digit; and whatever the secret and the clock, such a code is
    never accepted. *)
Theorem verify_totp_rejects_malformed
        (secret : string) (code : string) (w : World) :
  malformed code = true ->
  fst (verify_totp (Some secret) code w) <> Ok true
  /\ (forall key,
         Base64.b32decode secret true = Ok key -> clock_in_range w ->
         verify_totp (Some secret) code w = (Ok false, w)).
Proof.
  intros Hm.
  assert (Hdec : forall key,
             Base64.b32decode secret true = Ok key -> clock_in_range w ->
             verify_totp (Some secret) code w = (Ok false, w)).
  { intros key K Hr. unfold verify_totp, bind, ret.
    rewrite (generate_totp_code_decoded secret key w K Hr).
    rewrite (malformed_not_generated code key (clock w) Hm). reflexivity. }
  split; [| exact Hdec].
  unfold verify_totp, bind, ret.
  destruct (generate_totp_code (Some secret) 30 w) as [[c | e] w1] eqn:G;
    [| cbn [fst]; discriminate].
  destruct (generate_totp_code_inv _ _ _ _ G) as [key [K [Hr [-> ->]]]].
  cbn [fst]. rewrite (malformed_not_generated code key (clock w) Hm).
  discriminate.
Qed.

(** C10.  For a secret text that is not base32 (with either case of
    letters), both [generate_totp_code] and [verify_totp], for every
    submitted code, raise an exception and leave the state as it was: the
    two methods are not total in the secret.  With a clock whose counter
    fits 64 bits the exception is the decoding error of [b32decode]. *)
Theorem totp_undecodable_secret_raises (secret : string) (w : World) :
  valid_base32 secret = false ->
  exists e,
    generate_totp_code (Some secret) 30 w = (Raise e, w)
    /\ (forall code, verify_totp (Some secret) code w = (Raise e, w))
    /\ (clock_in_range w ->
        is_decode_error e = true
        /\ Base64.b32decode secret true = Raise e).
Proof.
  intros V. destruct (b32decode_invalid secret V) as [e [He K]].
  assert (G : exists e',
             generate_totp_code (Some secret) 30 w = (Raise e', w)
             /\ (clock_in_range w -> e' = e)).
  { unfold generate_totp_code, bind, time_time, floordiv, lift, ret.
    change (30 =? 0) with false. cbv beta iota.
    destruct (Struct.pack_Q (clock w / 30)) as [cb | e'] eqn:P.
    - rewrite K. exists e. auto.
    - exists e'. split; [reflexivity |].
      intros Hr. rewrite (pack_counter _ Hr) in P. discriminate P. }
  destruct G as [e' [G E]]. exists e'.
  split; [exact G |].
  split.
  - intros code. unfold verify_totp, bind. rewrite G. reflexivity.
  - intros Hr. rewrite (E Hr). auto.
Qed.

(** *** Password hashing *)

Lemma hex_lower (bs : Bytes.bytes) : lower_hex (Hashlib.hex bs) = true.
Proof.
  induction bs as [| b bs IH]; [reflexivity |].
  cbn [Hashlib.hex lower_hex]. rewrite IH, !andb_true_r.
  destruct b; reflexivity.
Qed.

Lemma truthy_some (s : string) : s <> "" -> truthy (Some s) = true.
Proof.
  intros H. unfold truthy. destruct (String.eqb s "") eqn:E; [| reflexivity].
  apply String.eqb_eq in E. contradiction.
Qed.

Lemma truthy_false (o : option string) :
  truthy o = false <-> o = None \/ o = Some "".
Proof.
  destruct o as [s |]; simpl.
  - split.
    + intros H. right. f_equal. apply String.eqb_eq.
      destruct (String.eqb s ""); [reflexivity | discriminate H].
    + intros [H | H]; [discriminate H |]. inversion H. reflexivity.
  - split; auto.
Qed.

Lemma fresh_salt_length (w : World) : String.length (fresh_salt w) = 32%nat.
Proof. unfold fresh_salt. rewrite hex_length, length_map, length_seq. reflexivity. Qed.

Lemma fresh_salt_nonempty (w : World) : fresh_salt w <> "".
Proof.
  intros H. pose proof (fresh_salt_length w) as L. rewrite H in L.
  discriminate L.
Qed.

(** With a non-empty salt, [hash_password] hashes [salt || password] and
    gives the salt back; the state is untouched. *)
Lemma hash_password_supplied (p s : string) (w : World) :
  s <> "" -> hash_password p (Some s) w = (Ok (salted_digest s p, s), w).
Proof.
  intros H. unfold hash_password. rewrite (truthy_some s H). reflexivity.
Qed.

(** With no salt, or the empty one, it draws 16 bytes and uses their
    hexadecimal text as the salt. *)
Lemma hash_password_fresh (p : string) (salt : option string) (w : World) :
  truthy salt = false ->
  hash_password p salt w
  = (Ok (salted_digest (fresh_salt w) p, fresh_salt w), drawn 16 w).
Proof.
  intros H. unfold hash_password.
  destruct salt as [s |]; [rewrite H |]; reflexivity.
Qed.

Lemma hash_password_total (p : string) (salt : option string) (w : World) :
  exists s' w1,
    hash_password p salt w = (Ok (salted_digest s' p, s'), w1)
    /\ s' <> "" /\ users w1 = users w /\ current_user w1 = current_user w
    /\ stdout w1 = stdout w /\ clock w1 = clock w.
Proof.
  destruct (truthy salt) eqn:T.
  - destruct salt as [s |]; [| discriminate T].
    assert (s <> "") by (intros ->; discriminate T).
    exists s, w. rewrite hash_password_supplied by assumption. auto 10.
  - exists (fresh_salt w), (drawn 16 w). rewrite hash_password_fresh by exact T.
    pose proof (fresh_salt_nonempty w). auto 10.
Qed.

Lemma check_password_supplied (p : string) (row : Row) (w : World) :
  password_salt row <> "" ->
  check_password p row w
  = (Ok (String.eqb (salted_digest (password_salt row) p) (password_hash row)),
     w).
Proof.
  intros H. unfold check_password, bind.
  rewrite hash_password_supplied by exact H. reflexivity.
Qed.

Lemma check_password_total (p : string) (row : Row) (w : World) :
  exists ok w1,
    check_password p row w = (Ok ok, w1)
    /\ users w1 = users w /\ current_user w1 = current_user w
    /\ stdout w1 = stdout w /\ clock w1 = clock w.
Proof.
  unfold check_password, bind.
  destruct (hash_password_total p (Some (password_salt row)) w)
    as [s' [w1 [H [_ F]]]].
  rewrite H. unfold ret. eauto.
Qed.

(** *** The login flow *)

(** [login], evaluated: the row is fetched, the password checked, and
    the second factor decides the rest. *)
Lemma login_run (u p : string) (c : option string) (w : World) :
  login u p c w =
  match fetch u w with
  | None => (Ok (PyBool false), printed "Invalid username or password." w)
  | Some row =>
      match check_password p row w with
      | (Raise e, w1) => (Raise e, w1)
      | (Ok false, w1) =>
          (Ok (PyBool false), printed "Invalid username or password." w1)
      | (Ok true, w1) =>
          if two_factor_enabled row =? 0
          then (Ok (PyBool true), logged_in u w1)
          else
            match c with
            | Some code =>
                if truthy c
                then
                  match verify_totp (two_factor_secret row) code w1 with
                  | (Ok true, w2) => (Ok (PyBool true), logged_in u w2)
                  | (Ok false, w2) =>
                      (Ok (PyBool false),
                       printed "Invalid two-factor code." w2)
                  | (Raise e, w2) => (Raise e, w2)
                  end
                else (Ok (PyStr "2FA_REQUIRED"),
                      printed "Two-factor authentication is required." w1)
            | None => (Ok (PyStr "2FA_REQUIRED"),
                       printed "Two-factor authentication is required." w1)
            end
      end
  end.
Proof.
  unfold login, check_password, bind, select_user. fold (fetch u w).
  destruct (fetch u w) as [row |]; [| reflexivity].
  destruct (hash_password_total p (Some (password_salt row)) w)
    as [s' [w1 [H _]]].
  rewrite H. unfold ret.
  destruct (String.eqb (salted_digest s' p) (password_hash row));
    cbn [negb]; [| reflexivity].
  destruct (two_factor_enabled row =? 0); cbn [negb]; [reflexivity |].
  destruct c as [code |]; [| reflexivity].
  destruct (truthy (Some code)); [| reflexivity].
  destruct (verify_totp (two_factor_secret row) code w1) as [[[|] | e] w2];
    reflexivity.
Qed.

(* ================================================================== *)
(** * The properties of the specification *)

Lemma string_neq_of_eqb (a b : string) : String.eqb a b = false -> a <> b.
Proof. apply String.eqb_neq. Qed.

(** ** Password hashing *)

(** C2 (as stated) fails for the empty salt: the digest returned by
    [hash_password "Secret123!" ""] is computed with a salt drawn at
    random, and the check with the salt [""] draws another one, so the
    password does not verify. *)
Lemma password_round_trip_fails_for_empty_salt :
  exists d s' w1,
    hash_password "Secret123!" (Some "") world0 = (Ok (d, s'), w1)
    /\ check_password "Secret123!" (mkRow 1 "alice" d "" 0 None) w1
       = (Ok false, drawn 16 w1).
Proof.
  do 3 eexists. split; [vm_compute; reflexivity |].
  vm_compute. reflexivity.
Qed.

(** C2 (as amended).  For every password and every non-empty salt,
    [hash_password] returns the digest of [salt || password] together with
    the salt, and the check that [login] makes on a row holding that salt
    and that digest succeeds, in any state. *)
Theorem password_round_trip (p s : string) (w w' : World) :
  s <> "" ->
  exists d,
    hash_password p (Some s) w = (Ok (d, s), w)
    /\ forall row,
        password_salt row = s -> password_hash row = d ->
        check_password p row w' = (Ok true, w').
Proof.
  intros Hs. exists (salted_digest s p).
  split; [apply hash_password_supplied; exact Hs |].
  intros row Hsalt Hhash.
  rewrite check_password_supplied by (rewrite Hsalt; exact Hs).
  rewrite Hsalt, Hhash, String.eqb_refl. reflexivity.
Qed.

(** Whatever salt is supplied, the check succeeds with the salt that
    [hash_password] returns: this is the round trip of [register_user]
    followed by [login]. *)
Lemma hash_then_check (p : string) (salt : option string) (w w' : World) :
  exists d s' w1,
    hash_password p salt w = (Ok (d, s'), w1)
    /\ forall row,
        password_salt row = s' -> password_hash row = d ->
        check_password p row w' = (Ok true, w').
Proof.
  destruct (hash_password_total p salt w) as [s' [w1 [H [Hs _]]]].
  exists (salted_digest s' p), s', w1. split; [exact H |].
  intros row Hsalt Hhash.
  rewrite check_password_supplied by (rewrite Hsalt; exact Hs).
  rewrite Hsalt, Hhash, String.eqb_refl. reflexivity.
Qed.

(** C6 (as stated) fails for the empty salt: two calls in a row return
    different pairs, and the salt returned is not the empty one. *)
Lemma hash_password_empty_salt_not_deterministic :
  exists d1 s1 w1 d2 s2 w2,
    hash_password "Secret123!" (Some "") world0 = (Ok (d1, s1), w1)
    /\ hash_password "Secret123!" (Some "") w1 = (Ok (d2, s2), w2)
    /\ d1 <> d2 /\ s1 <> s2 /\ s1 <> "".
Proof.
  do 6 eexists. split; [vm_compute; reflexivity |].
  split; [vm_compute; reflexivity |].
  repeat split; apply string_neq_of_eqb; vm_compute; reflexivity.
Qed.

(** C6 (as amended).  For every password and every non-empty salt, two
    calls of [hash_password], in any two states, return the same pair, and
    the salt of the pair is the salt supplied. *)
Theorem hash_password_deterministic (p s : string) (w1 w2 : World) :
  s <> "" ->
  fst (hash_password p (Some s) w1) = fst (hash_password p (Some s) w2)
  /\ exists d, fst (hash_password p (Some s) w1) = Ok (d, s).
Proof.
  intros Hs. rewrite !hash_password_supplied by exact Hs.
  split; [reflexivity | eexists; reflexivity].
Qed.

(** C7 (as stated) fails when the salt supplied is the empty string: the
    digest is not the SHA-256 of [salt || password], a fresh salt is drawn
    instead. *)
Lemma hash_password_empty_salt_digest :
  exists d s' w1,
    hash_password "Secret123!" (Some "") world0 = (Ok (d, s'), w1)
    /\ d <> salted_digest "" "Secret123!"
    /\ s' = "000102030405060708090a0b0c0d0e0f".
Proof.
  do 3 eexists. split; [vm_compute; reflexivity |].
  split; [apply string_neq_of_eqb; vm_compute; reflexivity | reflexivity].
Qed.

(** C7 (as amended).  With a non-empty salt, [hash_password] returns as
    digest the lowercase hexadecimal text of the SHA-256 of
    [salt || password] and changes nothing.  With no salt, or with the
    empty string as salt, it first draws 16 bytes from the entropy source,
    takes their 32 lowercase hexadecimal digits as the salt and hashes in
    the same way; the next draw reads the bytes that follow. *)
Theorem hash_password_digest (p : string) (salt : option string) (w : World) :
  (forall s, salt = Some s -> s <> "" ->
             hash_password p salt w = (Ok (salted_digest s p, s), w))
  /\ (truthy salt = false ->
      hash_password p salt w
      = (Ok (salted_digest (fresh_salt w) p, fresh_salt w), drawn 16 w)
      /\ fresh_salt w = Hashlib.hex (map (entropy w) (seq 0 16))
      /\ String.length (fresh_salt w) = 32%nat
      /\ lower_hex (fresh_salt w) = true
      /\ fresh_salt (drawn 16 w) = Hashlib.hex (map (entropy w) (seq 16 16)))
  /\ (forall s,
         salted_digest s p
         = Hashlib.hex (Hashlib.SHA256.digest (encode s ++ encode p))
         /\ String.length (salted_digest s p) = 64%nat
         /\ lower_hex (salted_digest s p) = true).
Proof.
  split; [| split].
  - intros s -> Hs. apply hash_password_supplied. exact Hs.
  - intros T. split; [apply hash_password_fresh; exact T |].
    split; [reflexivity |].
    split; [apply fresh_salt_length |].
    split; [apply hex_lower | reflexivity].
  - intros s. split; [reflexivity |].
    split; [| apply hex_lower].
    unfold salted_digest. rewrite hex_length, sha256_digest_length.
    reflexivity.
Qed.

(** ** The login flow *)

(** C1 (as stated) fails: [login] has three return values, not four.  With
    the second factor enabled, an attempt with a wrong password and an
    attempt with the right password and a wrong code both return [False];
    only the line printed tells them apart. *)
Lemma login_invalid_outcomes_coincide :
  login "alice" "wrong" (Some "000000") alice_2fa_world
  = (Ok (PyBool false),
     printed "Invalid username or password." alice_2fa_world)
  /\ login "alice" "Secret123!" (Some "000000") alice_2fa_world
     = (Ok (PyBool false),
        printed "Invalid two-factor code." alice_2fa_world).
Proof. split; vm_compute; reflexivity. Qed.

(** C1 (as amended).  [login] returns [False] and prints "Invalid username
    or password." when no row is fetched or the recomputed digest differs
    from the stored one; once the digest matches it returns [True] when
    the second factor is off, ["2FA_REQUIRED"] when it is on and the code
    is [None] or empty, and otherwise what [verify_totp] decides: [True],
    or [False] with "Invalid two-factor code.", or the exception that
    [verify_totp] raises.  The three values are pairwise distinct; the
    invalid-credentials and the invalid-code results are the same value
    [False]. *)
Theorem login_outcomes (u p : string) (c : option string) (w : World) :
  (fetch u w = None ->
   login u p c w
   = (Ok (PyBool false), printed "Invalid username or password." w))
  /\ (forall row,
         fetch u w = Some row ->
         exists ok w1,
           check_password p row w = (Ok ok, w1)
           /\ (password_salt row <> "" ->
               w1 = w /\
               ok = String.eqb (salted_digest (password_salt row) p)
                               (password_hash row))
           /\ (ok = false ->
               login u p c w
               = (Ok (PyBool false),
                  printed "Invalid username or password." w1))
           /\ (ok = true -> two_factor_enabled row = 0 ->
               login u p c w = (Ok (PyBool true), logged_in u w1))
           /\ (ok = true -> two_factor_enabled row <> 0 ->
               truthy c = false ->
               login u p c w
               = (Ok (PyStr "2FA_REQUIRED"),
                  printed "Two-factor authentication is required." w1))
           /\ (ok = true -> two_factor_enabled row <> 0 ->
               forall code, c = Some code -> code <> "" ->
               match fst (verify_totp (two_factor_secret row) code w1) with
               | Ok true =>
                   login u p c w = (Ok (PyBool true), logged_in u w1)
               | Ok false =>
                   login u p c w
                   = (Ok (PyBool false),
                      printed "Invalid two-factor code." w1)
               | Raise e => login u p c w = (Raise e, w1)
               end))
  /\ (forall v, fst (login u p c w) = Ok v ->
                v = PyBool true \/ v = PyBool false
                \/ v = PyStr "2FA_REQUIRED")
  /\ PyBool true <> PyBool false
  /\ PyBool true <> PyStr "2FA_REQUIRED"
  /\ PyBool false <> PyStr "2FA_REQUIRED".
Proof.
  split; [| split; [| split; [| repeat split; discriminate]]].
  3:{ intros v. rewrite login_run.
      destruct (fetch u w) as [row |];
        [| cbn [fst]; intros H; inversion H; auto].
      destruct (check_password p row w) as [[[|] | e] w1]; cbn [fst];
        try (intros H; inversion H; auto; fail).
      destruct (two_factor_enabled row =? 0);
        [cbn [fst]; intros H; inversion H; auto |].
      destruct c as [code |]; [| cbn [fst]; intros H; inversion H; auto].
      destruct (truthy (Some code));
        [| cbn [fst]; intros H; inversion H; auto].
      destruct (verify_totp (two_factor_secret row) code w1)
        as [[[|] | e] w2]; cbn [fst]; intros H; inversion H; auto. }
  - intros F. rewrite login_run, F. reflexivity.
  - intros row F.
    destruct (check_password_total p row w) as [ok [w1 [C _]]].
    exists ok, w1. split; [exact C |].
    split.
    { intros Hs. rewrite check_password_supplied in C by exact Hs.
      inversion C. auto. }
    rewrite login_run, F, C.
    split; [intros ->; reflexivity |].
    split.
    { intros -> E. apply Z.eqb_eq in E. rewrite E. reflexivity. }
    split.
    { intros -> E T. apply Z.eqb_neq in E. rewrite E.
      destruct c as [code |]; [rewrite T |]; reflexivity. }
    intros -> E code -> Hcode. apply Z.eqb_neq in E. rewrite E.
    rewrite (truthy_some code Hcode).
    pose proof (verify_totp_state (two_factor_secret row) code w1) as S.
    destruct (verify_totp (two_factor_secret row) code w1)
      as [[[|] | e] w2]; cbn [fst snd] in *; subst w2; reflexivity.
Qed.

Lemma login_str_text (u : string) (p : list Z) (bs : Bytes.bytes)
      (c : option string) (w : World) :
  Utf8.encode p = Ok bs ->
  login_str u p c w = login u (string_of_list_byte bs) c w.
Proof. intros E. unfold login_str. rewrite E. reflexivity. Qed.

Lemma login_str_unencodable (u : string) (p : list Z) (e : exn)
      (c : option string) (w : World) :
  Utf8.encode p = Raise e ->
  login_str u p c w =
  match fetch u w with
  | None => (Ok (PyBool false), printed "Invalid username or password." w)
  | Some row =>
      (Raise e, if truthy (Some (password_salt row)) then w else drawn 16 w)
  end.
Proof.
  intros E. unfold login_str. rewrite E.
  unfold bind, select_user. fold (fetch u w).
  destruct (fetch u w) as [row |]; [| reflexivity].
  destruct (truthy (Some (password_salt row))); reflexivity.
Qed.



(** C8 (as stated) fails on success: a successful [login] stores the user
    name in [self.current_user]. *)
Lemma login_sets_current_user :
  current_user alice_world = None
  /\ fst (login "alice" "Secret123!" None alice_world) = Ok (PyBool true)
  /\ current_user (snd (login "alice" "Secret123!" None alice_world))
     = Some "alice".
Proof. repeat split; vm_compute; reflexivity. Qed.

(** C8 (as amended).  [login] never changes the rows of the table, nor the
    clock; it leaves [current_user] as it was on every result but [True],
    and on [True] it sets it to the user name of the attempt; whenever it
    returns it has printed exactly one line. *)
Theorem login_frame (u p : string) (c : option string) (w : World) :
  let run := login u p c w in
  users (snd run) = users w
  /\ clock (snd run) = clock w
  /\ (fst run = Ok (PyBool true) -> current_user (snd run) = Some u)
  /\ (fst run <> Ok (PyBool true) ->
      current_user (snd run) = current_user w)
  /\ (forall v, fst run = Ok v ->
                exists line, stdout (snd run) = stdout w ++ [line]).
Proof.
  intros run. subst run. rewrite login_run.
  destruct (fetch u w) as [row |].
  2:{ cbn. repeat split; try reflexivity; [discriminate | eauto]. }
  destruct (check_password_total p row w)
    as [ok [w1 [E [Hu [Hc [Hs Hk]]]]]].
  rewrite E.
  set (frame := fun run : result PyVal * World =>
         users (snd run) = users w /\ clock (snd run) = clock w
         /\ (fst run = Ok (PyBool true) -> current_user (snd run) = Some u)
         /\ (fst run <> Ok (PyBool true) ->
             current_user (snd run) = current_user w)
         /\ (forall v, fst run = Ok v ->
                       exists line, stdout (snd run) = stdout w ++ [line])).
  assert (Hprint : forall v line,
             v <> PyBool true -> frame (Ok v, printed line w1)).
  { intros v line Hv. unfold frame. cbn. rewrite Hs.
    repeat split; auto; [congruence | eauto]. }
  assert (Hsucc : frame (Ok (PyBool true), logged_in u w1)).
  { unfold frame. cbn. rewrite Hs. repeat split; auto; [| eauto].
    intros N. contradiction N. reflexivity. }
  assert (Hraise : forall e, frame (Raise e, w1)).
  { intros e. unfold frame. cbn.
    repeat split; auto; discriminate. }
  change (frame
    (if ok
     then
       if two_factor_enabled row =? 0
       then (Ok (PyBool true), logged_in u w1)
       else
         match c with
         | Some code =>
             if truthy c
             then
               match verify_totp (two_factor_secret row) code w1 with
               | (Ok true, w2) => (Ok (PyBool true), logged_in u w2)
               | (Ok false, w2) =>
                   (Ok (PyBool false), printed "Invalid two-factor code." w2)
               | (Raise e, w2) => (Raise e, w2)
               end
             else (Ok (PyStr "2FA_REQUIRED"),
                   printed "Two-factor authentication is required." w1)
         | None => (Ok (PyStr "2FA_REQUIRED"),
                    printed "Two-factor authentication is required." w1)
         end
     else (Ok (PyBool false), printed "Invalid username or password." w1))).
  destruct ok; [| apply Hprint; discriminate].
  destruct (two_factor_enabled row =? 0); [apply Hsucc |].
  destruct c as [code |]; [| apply Hprint; discriminate].
  destruct (truthy (Some code)); [| apply Hprint; discriminate].
  pose proof (verify_totp_state (two_factor_secret row) code w1) as S.
  destruct (verify_totp (two_factor_secret row) code w1)
    as [[[|] | e] w2]; cbn [snd] in S; subst w2.
  - apply Hsucc.
  - apply Hprint. discriminate.
  - apply Hraise.
Qed.

(* ================================================================== *)
(** * The properties on the concrete run *)

Lemma password_round_trip_witness :
  "pepper" <> ""
  /\ exists d,
      hash_password "Secret123!" (Some "pepper") world0
      = (Ok (d, "pepper"), world0)
      /\ forall row,
          password_salt row = "pepper" -> password_hash row = d ->
          check_password "Secret123!" row alice_world = (Ok true, alice_world).
Proof.
  assert (H : "pepper" <> "") by (apply string_neq_of_eqb; reflexivity).
  split; [exact H |].
  exact (password_round_trip "Secret123!" "pepper" world0 alice_world H).
Defined.

Lemma hash_password_deterministic_witness :
  "pepper" <> ""
  /\ fst (hash_password "Secret123!" (Some "pepper") world0)
     = fst (hash_password "Secret123!" (Some "pepper") alice_world).
Proof.
  assert (H : "pepper" <> "") by (apply string_neq_of_eqb; reflexivity).
  split; [exact H |].
  exact (proj1 (hash_password_deterministic
                  "Secret123!" "pepper" world0 alice_world H)).
Defined.

Lemma generate_totp_code_follows_hotp_witness :
  Base64.b32decode rfc6238_secret true = Ok (encode "12345678901234567890")
  /\ clock_exact world0
  /\ generate_totp_code (Some rfc6238_secret) 30 world0
     = (Ok (TotpSpec.generate (encode "12345678901234567890") 59), world0)
  /\ TotpSpec.generate (encode "12345678901234567890") 59 = "287082".
Proof.
  assert (K : Base64.b32decode rfc6238_secret true
              = Ok (encode "12345678901234567890"))
    by (vm_compute; reflexivity).
  assert (R : clock_exact world0)
    by (unfold clock_exact; simpl; lia).
  split; [exact K |]. split; [exact R |].
  split; [| vm_compute; reflexivity].
  exact (proj1 (generate_totp_code_follows_hotp
                  rfc6238_secret (encode "12345678901234567890") world0 K R)).
Defined.

Lemma totp_round_trip_witness :
  clock world0 / 30 = clock world31 / 30
  /\ fst (generate_totp_code (Some rfc6238_secret) 30 world0) = Ok "287082"
  /\ verify_totp (Some rfc6238_secret) "287082" world31 = (Ok true, world31).
Proof.
  assert (C : clock world0 / 30 = clock world31 / 30) by reflexivity.
  assert (G : fst (generate_totp_code (Some rfc6238_secret) 30 world0)
              = Ok "287082") by (vm_compute; reflexivity).
  split; [exact C |]. split; [exact G |].
  exact (proj1 (totp_round_trip rfc6238_secret world0 world31 C) "287082" G).
Defined.

Lemma verify_totp_rejects_malformed_witness :
  malformed "12345" = true
  /\ Base64.b32decode rfc6238_secret true = Ok (encode "12345678901234567890")
  /\ clock_in_range world0
  /\ verify_totp (Some rfc6238_secret) "12345" world0 = (Ok false, world0).
Proof.
  assert (M : malformed "12345" = true) by reflexivity.
  assert (K : Base64.b32decode rfc6238_secret true
              = Ok (encode "12345678901234567890"))
    by (vm_compute; reflexivity).
  assert (R : clock_in_range world0)
    by (unfold clock_in_range; simpl; lia).
  split; [exact M |]. split; [exact K |]. split; [exact R |].
  exact (proj2 (verify_totp_rejects_malformed rfc6238_secret "12345" world0 M)
               (encode "12345678901234567890") K R).
Defined.

Lemma totp_undecodable_secret_raises_witness :
  valid_base32 "abc" = false
  /\ exists e,
      generate_totp_code (Some "abc") 30 world0 = (Raise e, world0)
      /\ (forall code, verify_totp (Some "abc") code world0 = (Raise e, world0))
      /\ (clock_in_range world0 ->
          is_decode_error e = true /\ Base64.b32decode "abc" true = Raise e).
Proof.
  assert (V : valid_base32 "abc" = false) by reflexivity.
  split; [exact V |].
  exact (totp_undecodable_secret_raises "abc" world0 V).
Defined.


(* ================================================================== *)
(** * Further properties of the methods *)

(** ** Base32: what [b32encode] writes, [b32decode] reads back *)

Section Base32RoundTrip.

Import Bytes Base64.

Lemma land_shiftl_low (a b k : Z) :
  0 <= k -> 0 <= b < 2 ^ k -> Z.land (Z.shiftl a k) b = 0.
Proof.
  intros Hk Hb.
  apply Z.bits_inj'; intros n Hn. rewrite Z.land_spec, Z.bits_0.
  destruct (Z_lt_le_dec n k) as [L | L].
  - rewrite Z.shiftl_spec_low by lia. reflexivity.
  - destruct (Z.eq_dec b 0) as [-> | N].
    + rewrite Z.bits_0. apply andb_false_r.
    + rewrite (Z.bits_above_log2 b n); [apply andb_false_r | lia |].
      apply Z.lt_le_trans with k; [apply Z.log2_lt_pow2; lia | lia].
Qed.

Lemma lor_shiftl_add (a b k : Z) :
  0 <= k -> 0 <= b < 2 ^ k -> Z.lor (Z.shiftl a k) b = a * 2 ^ k + b.
Proof.
  intros Hk Hb.
  pose proof (land_shiftl_low a b k Hk Hb) as H.
  rewrite <- Z.lxor_lor, <- Z.add_nocarry_lxor by exact H.
  rewrite Z.shiftl_mul_pow2 by lia. reflexivity.
Qed.

Lemma of_Z_eq (x : Z) (b : byte) : x mod 256 = to_Z b -> of_Z x = b.
Proof.
  intros H. unfold of_Z. rewrite H. unfold to_Z.
  rewrite N2Z.id, Byte.of_to_N. reflexivity.
Qed.

Lemma be_int_5 (a b c d e : byte) :
  be_int [a; b; c; d; e]
  = (((to_Z a * 256 + to_Z b) * 256 + to_Z c) * 256 + to_Z d) * 256 + to_Z e.
Proof.
  unfold be_int. cbv [fold_left]. rewrite Z.shiftl_0_l, Z.lor_0_l.
  rewrite !lor_shiftl_add
    by (try lia; change (2 ^ 8) with 256; apply to_Z_range).
  change (2 ^ 8) with 256. reflexivity.
Qed.

(** Five bytes written big-endian are read back. *)
Lemma be_bytes_be_int_5 (g : bytes) :
  length g = 5%nat -> be_bytes 5 (be_int g) = g.
Proof.
  intros H.
  destruct g as [| a [| b [| c [| d [| e [| x g]]]]]]; try discriminate H.
  rewrite be_int_5.
  pose proof (to_Z_range a). pose proof (to_Z_range b).
  pose proof (to_Z_range c). pose proof (to_Z_range d).
  pose proof (to_Z_range e).
  cbv [be_bytes]. rewrite !Z.shiftr_div_pow2 by (cbn; lia).
  change (2 ^ (8 * Z.of_nat 4)) with 4294967296.
  change (2 ^ (8 * Z.of_nat 3)) with 16777216.
  change (2 ^ (8 * Z.of_nat 2)) with 65536.
  change (2 ^ (8 * Z.of_nat 1)) with 256.
  change (2 ^ (8 * Z.of_nat 0)) with 1.
  repeat (f_equal;
          [apply of_Z_eq; Z.to_euclidean_division_equations; lia |]).
  f_equal. apply of_Z_eq. Z.to_euclidean_division_equations. lia.
Qed.

Lemma be_int_5_range (g : bytes) :
  length g = 5%nat -> 0 <= be_int g < 2 ^ 40.
Proof.
  intros H.
  destruct g as [| a [| b [| c [| d [| e [| x g]]]]]]; try discriminate H.
  rewrite be_int_5.
  pose proof (to_Z_range a). pose proof (to_Z_range b).
  pose proof (to_Z_range c). pose proof (to_Z_range d).
  pose proof (to_Z_range e).
  change (2 ^ 40) with 1099511627776. lia.
Qed.

(** The digits of the alphabet: their values, and what they are not. *)
Lemma b32tab_facts (v : Z) :
  0 <= v < 32 ->
  b32rev (b32tab v) = Some v
  /\ upper_byte (b32tab v) = b32tab v
  /\ is_pad (b32tab v) = false
  /\ is_ascii (b32tab v) = true.
Proof.
  intros H.
  assert (E : forall k, 0 <= k < 32 ->
                        b32rev (b32tab k) = Some k
                        /\ upper_byte (b32tab k) = b32tab k
                        /\ is_pad (b32tab k) = false
                        /\ is_ascii (b32tab k) = true) by
    (intros k Hk;
     assert (k = 0 \/ k = 1 \/ k = 2 \/ k = 3 \/ k = 4 \/ k = 5 \/ k = 6 \/
             k = 7 \/ k = 8 \/ k = 9 \/ k = 10 \/ k = 11 \/ k = 12 \/
             k = 13 \/ k = 14 \/ k = 15 \/ k = 16 \/ k = 17 \/ k = 18 \/
             k = 19 \/ k = 20 \/ k = 21 \/ k = 22 \/ k = 23 \/ k = 24 \/
             k = 25 \/ k = 26 \/ k = 27 \/ k = 28 \/ k = 29 \/ k = 30 \/
             k = 31) as C by lia;
     repeat (destruct C as [-> | C]; [repeat split; reflexivity |]);
     subst k; repeat split; reflexivity).
  apply E. exact H.
Qed.

(** The value of the digit at position [i] of the group of value [c]. *)
Lemma digit_value_range (c : Z) (i : nat) :
  0 <= Z.land (Z.shiftr c (5 * (7 - Z.of_nat i))) 31 < 32.
Proof.
  change 31 with (Z.ones 5). rewrite Z.land_ones by lia.
  change (2 ^ 5) with 32. apply Z.mod_pos_bound. lia.
Qed.

Lemma encode_group_full (g : bytes) :
  length g = 5%nat ->
  encode_group g
  = map (fun i => b32tab (Z.land (Z.shiftr (be_int g) (5 * (7 - Z.of_nat i))) 31))
        (seq 0 8).
Proof.
  intros H. unfold encode_group. rewrite H.
  change (repeat x00 (5 - 5)) with (@nil byte). rewrite app_nil_r.
  cbn [seq map firstn repeat Nat.sub]. rewrite app_nil_r. reflexivity.
Qed.

(** A full group is read back to the value it was written from. *)
Lemma quantum_encode_group (g : bytes) :
  length g = 5%nat -> quantum (encode_group g) 0 = Some (be_int g).
Proof.
  intros H. rewrite (encode_group_full g H).
  pose proof (be_int_5_range g H) as R. set (c := be_int g) in *.
  cbn [seq map quantum].
  repeat match goal with
         | |- context [b32rev (b32tab ?v)] =>
             rewrite (proj1 (b32tab_facts v (digit_value_range c _)))
         end.
  f_equal.
  change 31 with (Z.ones 5). rewrite !Z.land_ones by lia.
  rewrite !Z.shiftr_div_pow2 by (cbn; lia).
  rewrite !Z.shiftl_mul_pow2 by lia.
  change (2 ^ 5) with 32.
  change (2 ^ (5 * (7 - Z.of_nat 0))) with 34359738368.
  change (2 ^ (5 * (7 - Z.of_nat 1))) with 1073741824.
  change (2 ^ (5 * (7 - Z.of_nat 2))) with 33554432.
  change (2 ^ (5 * (7 - Z.of_nat 3))) with 1048576.
  change (2 ^ (5 * (7 - Z.of_nat 4))) with 32768.
  change (2 ^ (5 * (7 - Z.of_nat 5))) with 1024.
  change (2 ^ (5 * (7 - Z.of_nat 6))) with 32.
  change (2 ^ (5 * (7 - Z.of_nat 7))) with 1.
  change (2 ^ 40) with 1099511627776 in R.
  Z.to_euclidean_division_equations. lia.
Qed.

Lemma chunks_fuel_enough (n : nat) (f1 : nat) :
  forall (f2 : nat) (l : bytes),
    (length l <= f1)%nat -> (length l <= f2)%nat -> (0 < n)%nat ->
    chunks_fuel f1 n l = chunks_fuel f2 n l.
Proof.
  induction f1 as [| f1 IH]; intros f2 l H1 H2 Hn.
  - destruct l; [| cbn [length] in H1; lia]. destruct f2; reflexivity.
  - destruct l as [| c l]; [destruct f2; reflexivity |].
    destruct f2 as [| f2]; [cbn [length] in H2; lia |].
    cbn [chunks_fuel]. f_equal.
    apply IH; try exact Hn; rewrite length_skipn; cbn [length] in *; lia.
Qed.

Lemma chunks_app_full (n : nat) (g r : bytes) :
  (0 < n)%nat -> length g = n -> chunks n (g ++ r) = g :: chunks n r.
Proof.
  intros Hn Hg. subst n. unfold chunks.
  destruct g as [| c g]; [cbn [length] in Hn; lia |].
  set (G := c :: g) in *.
  change (G ++ r) with (c :: (g ++ r)) at 1 2.
  cbn [length chunks_fuel].
  change (c :: g ++ r) with (G ++ r).
  rewrite firstn_app, skipn_app, firstn_all, skipn_all, Nat.sub_diag.
  cbn [firstn skipn app]. rewrite app_nil_r. f_equal.
  apply chunks_fuel_enough; try exact Hn; rewrite ?length_app; lia.
Qed.

Lemma chunks_concat (n : nat) (gs : list bytes) :
  (0 < n)%nat -> Forall (fun g => length g = n) gs ->
  chunks n (concat gs) = gs.
Proof.
  intros Hn H. induction H as [| g gs Hg _ IH]; [reflexivity |].
  cbn [concat]. rewrite chunks_app_full by assumption. f_equal. exact IH.
Qed.

Lemma encode_group_length (g : bytes) :
  length g = 5%nat -> length (encode_group g) = 8%nat.
Proof. intros H. rewrite (encode_group_full g H). reflexivity. Qed.

(** Every character that [b32encode] writes for full groups is a digit of
    the alphabet. *)
Lemma encode_group_digits (g : bytes) :
  length g = 5%nat ->
  Forall (fun c => upper_byte c = c /\ is_pad c = false /\ is_ascii c = true)
         (encode_group g).
Proof.
  intros H. rewrite (encode_group_full g H).
  apply Forall_forall. intros c Hc. apply in_map_iff in Hc.
  destruct Hc as [i [<- _]].
  apply (b32tab_facts _ (digit_value_range (be_int g) i)).
Qed.

Lemma encoded_digits (gs : list bytes) :
  Forall (fun g => length g = 5%nat) gs ->
  Forall (fun c => upper_byte c = c /\ is_pad c = false /\ is_ascii c = true)
         (concat (map encode_group gs)).
Proof.
  intros H. induction H as [| g gs Hg _ IH]; [constructor |].
  cbn [map concat]. apply Forall_app. split; [| exact IH].
  apply encode_group_digits. exact Hg.
Qed.

Lemma lstrip_pad_id (l : bytes) :
  Forall (fun c => is_pad c = false) l -> lstrip_pad l = l.
Proof.
  intros H. destruct H as [| c l Hc _]; [reflexivity |].
  cbn [lstrip_pad]. rewrite Hc. reflexivity.
Qed.

Lemma quanta_encoded (gs : list bytes) :
  Forall (fun g => length g = 5%nat) gs ->
  forall decoded acc,
  exists a, quanta (map encode_group gs) decoded acc
            = Some (decoded ++ concat gs, a).
Proof.
  intros H. induction H as [| g gs Hg _ IH]; intros decoded acc.
  - exists acc. cbn [map quanta concat]. rewrite app_nil_r. reflexivity.
  - cbn [map quanta concat]. rewrite (quantum_encode_group g Hg).
    rewrite (be_bytes_be_int_5 g Hg).
    destruct (IH (decoded ++ g) (be_int g)) as [a E].
    exists a. rewrite E, <- app_assoc. reflexivity.
Qed.

(** Bytes that make whole groups of five are read back from their base32
    text, with or without case folding. *)
Lemma b32decode_b32encode_groups (gs : list bytes) (casefold : bool) :
  Forall (fun g => length g = 5%nat) gs ->
  b32decode (string_of_list_byte (b32encode (concat gs))) casefold
  = Ok (concat gs).
Proof.
  intros H. unfold b32encode. rewrite (chunks_concat 5) by (lia || exact H).
  pose proof (encoded_digits gs H) as D.
  set (X := concat (map encode_group gs)) in *.
  assert (HX8 : Forall (fun q => length q = 8%nat) (map encode_group gs)).
  { apply Forall_forall. intros q Hq. apply in_map_iff in Hq.
    destruct Hq as [g [<- Hg]]. apply encode_group_length.
    rewrite Forall_forall in H. apply H. exact Hg. }
  assert (Hlen : length X = (8 * length gs)%nat).
  { subst X. clear D HX8. induction H as [| g gs Hg _ IH]; [reflexivity |].
    cbn [map concat length].
    rewrite length_app, IH, (encode_group_length g Hg). lia. }
  assert (Hascii : forallb is_ascii X = true).
  { apply forallb_forall. intros c Hc. rewrite Forall_forall in D.
    apply (D c Hc). }
  assert (Hup : map upper_byte X = X).
  { clear Hlen Hascii. induction D as [| c l [Hc _] _ IH]; [reflexivity |].
    cbn [map]. rewrite Hc, IH. reflexivity. }
  assert (Hstrip : rstrip_pad X = X).
  { unfold rstrip_pad. rewrite lstrip_pad_id; [apply rev_involutive |].
    apply Forall_rev. apply Forall_forall. intros c Hc.
    rewrite Forall_forall in D. apply (D c Hc). }
  unfold b32decode. rewrite list_byte_of_string_of_list_byte.
  rewrite Hascii. cbn [negb].
  replace (length X mod 8 =? 0)%nat with true
    by (rewrite Hlen, Nat.mul_comm, Nat.Div0.mod_mul; reflexivity).
  cbn [negb].
  replace (if casefold then map upper_byte X else X) with X
    by (destruct casefold; [symmetry; exact Hup | reflexivity]).
  rewrite Hstrip, Nat.sub_diag.
  unfold X at 1. rewrite (chunks_concat 8) by (lia || exact HX8).
  destruct (quanta_encoded gs H [] 0) as [a E]. rewrite E.
  reflexivity.
Qed.

(** In particular the ten bytes of a two-factor secret. *)
Lemma b32decode_b32encode_10 (bs : bytes) (casefold : bool) :
  length bs = 10%nat ->
  b32decode (string_of_list_byte (b32encode bs)) casefold = Ok bs
  /\ String.length (string_of_list_byte (b32encode bs)) = 16%nat.
Proof.
  intros H.
  assert (E : bs = concat [firstn 5 bs; skipn 5 bs])
    by (cbn [concat]; rewrite app_nil_r, firstn_skipn; reflexivity).
  assert (F : Forall (fun g => length g = 5%nat) [firstn 5 bs; skipn 5 bs]).
  { repeat constructor; [rewrite length_firstn | rewrite length_skipn]; lia. }
  split.
  - rewrite E at 1 2. apply b32decode_b32encode_groups. exact F.
  - rewrite E. unfold b32encode. rewrite (chunks_concat 5) by (lia || exact F).
    cbn [map concat]. rewrite app_nil_r.
    assert (L : forall l, String.length (string_of_list_byte l) = length l)
      by (unfold string_of_list_byte;
          induction l as [| x l IH]; [reflexivity |];
          cbn [map string_of_list_ascii String.length length];
          rewrite IH; reflexivity).
    rewrite L, length_app, !encode_group_length; [reflexivity | |].
    + rewrite length_skipn. lia.
    + rewrite length_firstn. lia.
Qed.

End Base32RoundTrip.

(** ** Registration *)

Lemma register_user_run (u p : string) (w : World) :
  register_user u p w =
  match fetch u w with
  | Some _ => (Ok false, printed "Username already exists!" w)
  | None => (Ok true, registered u p w)
  end.
Proof.
  unfold register_user, bind, select_user. fold (fetch u w).
  destruct (fetch u w); [reflexivity |].
  rewrite hash_password_fresh by reflexivity. reflexivity.
Qed.

Lemma fetch_app (u : string) (w : World) (rows : list Row) (r : Row) :
  users w = rows ++ [r] ->
  fetch u w =
  match find (fun x => String.eqb (username x) u) rows with
  | Some x => Some x
  | None => if String.eqb (username r) u then Some r else None
  end.
Proof.
  intros E. unfold fetch. rewrite E. clear E.
  induction rows as [| x rows IH]; [reflexivity |].
  cbn [app find]. destruct (String.eqb (username x) u); [reflexivity | exact IH].
Qed.

Lemma fetch_registered (u p u' : string) (w : World) :
  fetch u' (registered u p w) =
  match fetch u' w with
  | Some x => Some x
  | None =>
      if String.eqb u u'
      then Some (mkRow (next_rowid (users w)) u
                       (salted_digest (fresh_salt w) p) (fresh_salt w) 0 None)
      else None
  end.
Proof.
  rewrite (fetch_app u' (registered u p w) (users w)
                     (mkRow (next_rowid (users w)) u
                            (salted_digest (fresh_salt w) p)
                            (fresh_salt w) 0 None)) by reflexivity.
  reflexivity.
Qed.

(** X1.  A registration under a name that is taken is refused:
    [register_user] returns [False], prints one line, and stores nothing:
    the rows, the current user, the clock and the entropy source are as
    they were, so no salt has been drawn either. *)
Theorem register_user_taken (u p : string) (w : World) (r : Row) :
  fetch u w = Some r ->
  fst (register_user u p w) = Ok false
  /\ users (snd (register_user u p w)) = users w
  /\ current_user (snd (register_user u p w)) = current_user w
  /\ entropy (snd (register_user u p w)) = entropy w
  /\ stdout (snd (register_user u p w))
     = stdout w ++ ["Username already exists!"].
Proof. intros F. rewrite register_user_run, F. repeat split. Qed.

(** X2.  Registration followed by login: after [register_user] has stored
    a new name with a password, [login] with that name and password
    returns [True] and makes the user current, whatever code is passed
    and in any later state that holds the same rows. *)
Theorem register_then_login (u p : string) (w : World) :
  fetch u w = None ->
  fst (register_user u p w) = Ok true
  /\ forall (c : option string) (w2 : World),
      users w2 = users (snd (register_user u p w)) ->
      login u p c w2 = (Ok (PyBool true), logged_in u w2).
Proof.
  intros F. rewrite register_user_run, F. split; [reflexivity |].
  intros c w2 E. cbn [snd] in E.
  assert (F2 : fetch u w2
               = Some (mkRow (next_rowid (users w)) u
                             (salted_digest (fresh_salt w) p)
                             (fresh_salt w) 0 None)).
  { unfold fetch at 1. rewrite E. fold (fetch u (registered u p w)).
    rewrite fetch_registered, F, String.eqb_refl. reflexivity. }
  rewrite login_run, F2.
  rewrite check_password_supplied by apply fresh_salt_nonempty.
  cbn [password_salt password_hash two_factor_enabled].
  rewrite String.eqb_refl. reflexivity.
Qed.

(** X3.  Registration never alters or hides an account: every row that
    [login] would fetch before a call of [register_user] is fetched
    unchanged after it, whether the call stored a user or refused. *)
Theorem register_user_keeps_accounts (u p u' : string) (w : World) (r : Row) :
  fetch u' w = Some r ->
  fetch u' (snd (register_user u p w)) = Some r.
Proof.
  intros F. rewrite register_user_run.
  destruct (fetch u w); cbn [snd]; [exact F |].
  rewrite fetch_registered, F. reflexivity.
Qed.

(** ** Enabling the second factor, and logging out *)

Lemma issued_secret_decodes (w : World) :
  Base64.b32decode (issued_secret w) true = Ok (map (entropy w) (seq 0 10))
  /\ String.length (issued_secret w) = 16%nat.
Proof.
  apply b32decode_b32encode_10. rewrite length_map, length_seq. reflexivity.
Qed.

Lemma issued_secret_valid (w : World) : valid_base32 (issued_secret w) = true.
Proof.
  apply b32decode_ok_iff. eexists. apply issued_secret_decodes.
Qed.

Lemma enable_2fa_refused (u : string) (w : World) :
  truthy (current_user w) = false \/ current_user w <> Some u ->
  enable_2fa u w
  = (Ok None, printed "You must be logged in to enable 2FA." w).
Proof.
  intros H. unfold enable_2fa, bind, get_current_user.
  destruct (current_user w) as [c |] eqn:C; [| reflexivity].
  destruct (truthy (Some c)); cbn [negb orb]; [| reflexivity].
  destruct (String.eqb c u) eqn:E; cbn [negb]; [| reflexivity].
  apply String.eqb_eq in E. subst c.
  destruct H as [H | H]; [discriminate H | contradiction H; reflexivity].
Qed.

(** What [enable_2fa] has stored when it is not refused, whether or not
    the code that it prints afterwards can be computed. *)
Lemma enable_2fa_stored (u : string) (w : World) :
  current_user w = Some u -> u <> "" ->
  users (snd (enable_2fa u w)) = two_factor_rows (issued_secret w) u (users w)
  /\ current_user (snd (enable_2fa u w)) = Some u
  /\ clock (snd (enable_2fa u w)) = clock w.
Proof.
  intros C Hu. unfold enable_2fa, bind, get_current_user. rewrite C.
  rewrite (truthy_some u Hu), String.eqb_refl. cbn [negb orb].
  unfold urandom, update_two_factor, print. cbv beta iota.
  match goal with
  | |- context [generate_totp_code ?s 30 ?v] =>
      pose proof (generate_totp_code_state s v) as S;
      destruct (generate_totp_code s 30 v) as [[code | e] v'];
      cbn [snd] in S; subst v'
  end.
  - cbv beta iota. cbn [snd users current_user clock]. rewrite C. auto.
  - cbn [snd users current_user clock]. rewrite C. auto.
Qed.

Lemma enable_2fa_run (u : string) (w : World) :
  current_user w = Some u -> u <> "" -> clock_in_range w ->
  enable_2fa u w = (Ok (Some (issued_secret w)), enabled u w).
Proof.
  intros C Hu R. unfold enable_2fa, bind, get_current_user. rewrite C.
  rewrite (truthy_some u Hu), String.eqb_refl. cbn [negb orb].
  unfold urandom, update_two_factor, print. cbv beta iota.
  match goal with
  | |- context [generate_totp_code (Some ?s) 30 ?v] =>
      rewrite (generate_totp_code_decoded
                 s (map (entropy w) (seq 0 10)) v
                 (proj1 (issued_secret_decodes w)) R)
  end.
  reflexivity.
Qed.

Lemma fetch_two_factor (secret u u' : string) (w w' : World) :
  users w' = two_factor_rows secret u (users w) ->
  fetch u' w' =
  match fetch u' w with
  | Some r => Some (if String.eqb u' u then with_two_factor secret r else r)
  | None => None
  end.
Proof.
  intros E. unfold fetch. rewrite E. clear E. unfold two_factor_rows.
  induction (users w) as [| x rows IH]; [reflexivity |].
  cbn [map find].
  destruct (String.eqb (username x) u) eqn:Ex.
  - cbn [with_two_factor username].
    destruct (String.eqb (username x) u') eqn:Ex'; [| exact IH].
    apply String.eqb_eq in Ex, Ex'. subst u u'.
    rewrite String.eqb_refl. reflexivity.
  - destruct (String.eqb (username x) u') eqn:Ex'; [| exact IH].
    apply String.eqb_eq in Ex'. subst u'. rewrite Ex. reflexivity.
Qed.

(** X4.  [enable_2fa] is refused, with [None], one printed line and
    nothing stored or drawn, unless the name is that of the current user;
    a current user whose name is the empty string counts as nobody. *)
Theorem enable_2fa_needs_login (u : string) (w : World) :
  truthy (current_user w) = false \/ current_user w <> Some u ->
  fst (enable_2fa u w) = Ok None
  /\ users (snd (enable_2fa u w)) = users w
  /\ current_user (snd (enable_2fa u w)) = current_user w
  /\ entropy (snd (enable_2fa u w)) = entropy w
  /\ stdout (snd (enable_2fa u w))
     = stdout w ++ ["You must be logged in to enable 2FA."].
Proof. intros H. rewrite (enable_2fa_refused u w H). repeat split. Qed.

(** X5.  For the current user, and a clock whose counter fits 64 bits,
    [enable_2fa] returns a secret of 16 base32 characters that decodes to
    the ten bytes just drawn from the entropy source; the row of the user
    now has the second factor enabled with that secret, and no other
    user's row has changed. *)
Theorem enable_2fa_issues_secret (u : string) (w : World) :
  current_user w = Some u -> u <> "" -> clock_in_range w ->
  let secret := issued_secret w in
  let after := snd (enable_2fa u w) in
  fst (enable_2fa u w) = Ok (Some secret)
  /\ String.length secret = 16%nat
  /\ Base64.b32decode secret true = Ok (map (entropy w) (seq 0 10))
  /\ (forall r, fetch u w = Some r ->
                fetch u after = Some (with_two_factor secret r))
  /\ (forall u', u' <> u -> fetch u' after = fetch u' w)
  /\ entropy after = (fun i => entropy w (10 + i)%nat).
Proof.
  intros C Hu R secret after. subst secret after.
  rewrite (enable_2fa_run u w C Hu R). cbn [fst snd].
  destruct (issued_secret_decodes w) as [K L].
  split; [reflexivity |]. split; [exact L |]. split; [exact K |].
  split; [| split; [| reflexivity]].
  - intros r F.
    rewrite (fetch_two_factor (issued_secret w) u u w (enabled u w))
      by reflexivity.
    rewrite F, String.eqb_refl. reflexivity.
  - intros u' N.
    rewrite (fetch_two_factor (issued_secret w) u u' w (enabled u w))
      by reflexivity.
    destruct (fetch u' w) as [r |]; [| reflexivity].
    replace (String.eqb u' u) with false; [reflexivity |].
    symmetry. apply String.eqb_neq. exact N.
Qed.

Lemma generated_code_nonempty (key : Bytes.bytes) (t : Z) :
  TotpSpec.generate key t <> "".
Proof.
  intros H. pose proof (generated_code_shape key t) as S.
  rewrite H in S. discriminate S.
Qed.

(** X6.  Once [enable_2fa] has stored a secret for a user, a [login] with
    the right password and no code, or the empty code, returns
    ["2FA_REQUIRED"] and logs nobody in; with the code that
    [generate_totp_code] gives for the issued secret at that moment it
    returns [True] and makes the user current.  This holds in any later
    state that holds the same rows. *)
Theorem enable_then_login (u p : string) (w : World) (r : Row) :
  current_user w = Some u -> u <> "" -> clock_in_range w ->
  fetch u w = Some r ->
  password_salt r <> "" ->
  password_hash r = salted_digest (password_salt r) p ->
  forall w2 : World,
    users w2 = users (snd (enable_2fa u w)) ->
    (forall c, truthy c = false ->
               login u p c w2
               = (Ok (PyStr "2FA_REQUIRED"),
                  printed "Two-factor authentication is required." w2))
    /\ (forall code,
           fst (generate_totp_code (Some (issued_secret w)) 30 w2) = Ok code ->
           login u p (Some code) w2 = (Ok (PyBool true), logged_in u w2)).
Proof.
  intros C Hu R F Hs Hh w2 E.
  destruct (enable_2fa_stored u w C Hu) as [U _]. rewrite U in E.
  assert (F2 : fetch u w2 = Some (with_two_factor (issued_secret w) r)).
  { rewrite (fetch_two_factor (issued_secret w) u u w w2 E).
    rewrite F, String.eqb_refl. reflexivity. }
  assert (P : check_password p (with_two_factor (issued_secret w) r) w2
              = (Ok true, w2)).
  { rewrite check_password_supplied by exact Hs.
    cbn [with_two_factor password_salt password_hash].
    rewrite Hh, String.eqb_refl. reflexivity. }
  split.
  - intros c T. rewrite login_run, F2, P.
    cbn [with_two_factor two_factor_enabled]. change (1 =? 0) with false.
    cbv iota. destruct c as [code |]; [rewrite T |]; reflexivity.
  - intros code G.
    destruct (generate_totp_code (Some (issued_secret w)) 30 w2)
      as [g w3] eqn:G2.
    cbn [fst] in G. subst g.
    destruct (generate_totp_code_inv _ _ _ _ G2) as [key [_ [_ [-> ->]]]].
    rewrite login_run, F2, P.
    cbn [with_two_factor two_factor_enabled two_factor_secret].
    change (1 =? 0) with false. cbv iota.
    rewrite (truthy_some _ (generated_code_nonempty key (clock w2))).
    unfold verify_totp, bind. rewrite G2. unfold ret.
    rewrite String.eqb_refl. reflexivity.
Qed.

(** X7.  After [logout] nobody counts as logged in: the rows are
    untouched, and [enable_2fa] is then refused for every name and stores
    nothing, until a new [login] succeeds. *)
Theorem logout_ends_session (u : string) (w : World) :
  let w' := snd (logout w) in
  fst (logout w) = Ok tt
  /\ truthy (current_user w') = false
  /\ users w' = users w
  /\ (truthy (current_user w) = true -> current_user w' = None)
  /\ fst (enable_2fa u w') = Ok None
  /\ users (snd (enable_2fa u w')) = users w.
Proof.
  intros w'.
  assert (L : fst (logout w) = Ok tt /\ truthy (current_user w') = false
              /\ users w' = users w
              /\ (truthy (current_user w) = true -> current_user w' = None)).
  { subst w'. unfold logout, bind, get_current_user.
    destruct (current_user w) as [c |] eqn:C.
    - destruct (truthy (Some c)) eqn:T.
      + cbn. auto.
      + cbn [fst snd print current_user users]. rewrite C.
        repeat split; auto. discriminate.
    - cbn [fst snd print current_user users]. rewrite C. repeat split; auto. }
  destruct L as [L1 [L2 [L3 L4]]].
  repeat split; try assumption.
  - rewrite (enable_2fa_refused u w' (or_introl L2)). reflexivity.
  - rewrite (enable_2fa_refused u w' (or_introl L2)). exact L3.
Qed.

(** ** One-time codes: the window, the case of the secret, the failures *)

(** X8.  The code depends on the clock through the 30-second window
    only: two calls of [generate_totp_code] for the same secret whose
    clocks fall in the same window return the same code, or raise the
    same exception. *)
Theorem generate_totp_code_window
        (secret : option string) (w w' : World) :
  clock w / 30 = clock w' / 30 ->
  fst (generate_totp_code secret 30 w) = fst (generate_totp_code secret 30 w').
Proof.
  intros H.
  unfold generate_totp_code, bind, time_time, floordiv, lift, ret, raise.
  change (30 =? 0) with false. cbv beta iota. rewrite H.
  destruct (Struct.pack_Q (clock w' / 30)) as [cb | e]; [| reflexivity].
  destruct secret as [s |]; [| reflexivity].
  destruct (Base64.b32decode s true) as [key | e]; [| reflexivity].
  cbv zeta.
  assert (Hm : length (Hmac.sha1 key cb) = 20%nat) by apply hmac_sha1_length.
  set (m := Hmac.sha1 key cb) in *. clearbody m.
  rewrite !(getitem_last m Hm).
  pose proof (land_15_range (Bytes.to_Z (nth 19 m x00))) as Ho.
  set (o := Z.land (Bytes.to_Z (nth 19 m x00)) 0x0F) in *.
  rewrite !(getitem_at m Hm o) by lia.
  rewrite !(getitem_at m Hm) by lia.
  reflexivity.
Qed.

Lemma is_ascii_upper (c : byte) :
  Base64.is_ascii (Base64.upper_byte c) = Base64.is_ascii c.
Proof. destruct c; reflexivity. Qed.

Lemma upper_byte_idem (c : byte) :
  Base64.upper_byte (Base64.upper_byte c) = Base64.upper_byte c.
Proof. destruct c; reflexivity. Qed.

(** With case folding a text and its upper-case form decode alike. *)
Lemma b32decode_upper (s : string) :
  Base64.b32decode (upper_text s) true = Base64.b32decode s true.
Proof.
  unfold Base64.b32decode, upper_text.
  rewrite list_byte_of_string_of_list_byte.
  set (bs := list_byte_of_string s).
  assert (A : forallb Base64.is_ascii (map Base64.upper_byte bs)
              = forallb Base64.is_ascii bs).
  { induction bs as [| c l IH]; [reflexivity |].
    cbn [map forallb]. rewrite IH, is_ascii_upper. reflexivity. }
  assert (U : map Base64.upper_byte (map Base64.upper_byte bs)
              = map Base64.upper_byte bs).
  { rewrite map_map. apply map_ext. intros c. apply upper_byte_idem. }
  rewrite A, U, !length_map. reflexivity.
Qed.

(** X9.  The secret is read without regard to the case of its letters:
    [generate_totp_code] and [verify_totp] give for a secret text the
    results they give for its upper-case form. *)
Theorem totp_secret_case_insensitive (s code : string) (w : World) :
  generate_totp_code (Some (upper_text s)) 30 w
  = generate_totp_code (Some s) 30 w
  /\ verify_totp (Some (upper_text s)) code w = verify_totp (Some s) code w.
Proof.
  assert (G : generate_totp_code (Some (upper_text s)) 30 w
              = generate_totp_code (Some s) 30 w).
  { unfold generate_totp_code. rewrite b32decode_upper. reflexivity. }
  split; [exact G |]. unfold verify_totp, bind. rewrite G. reflexivity.
Qed.

Lemma pack_counter_out_of_range (w : World) :
  ~ clock_in_range w -> Struct.pack_Q (clock w / 30) = Raise StructError.
Proof.
  intros N. unfold Struct.pack_Q.
  destruct ((0 <=? clock w / 30) && (clock w / 30 <? 2 ^ 64))%bool eqn:E;
    [| reflexivity].
  exfalso. apply N. apply clock_in_range_counter.
  apply andb_prop in E. destruct E as [L U].
  apply Z.leb_le in L. apply Z.ltb_lt in U. lia.
Qed.

Lemma clock_in_range_dec (w : World) : clock_in_range w \/ ~ clock_in_range w.
Proof. unfold clock_in_range. lia. Qed.

(** X10.  The four ways in which [generate_totp_code] ends, none of which
    changes the state: [struct.error] when the counter does not fit 64
    bits; otherwise [TypeError] for the secret [None], the decoding error
    for a text that is not base32, and a code of six decimal digits for a
    base32 text, which for a clock reading below 2^53 seconds is the code
    of the counter [floor (t / 30)].  In particular the indexing of the
    MAC never raises. *)
Theorem generate_totp_code_outcomes (secret : option string) (w : World) :
  ((~ clock_in_range w
    /\ generate_totp_code secret 30 w = (Raise StructError, w))
   \/ (clock_in_range w /\ secret = None
       /\ generate_totp_code secret 30 w = (Raise TypeError, w))
   \/ (clock_in_range w
       /\ exists s e, secret = Some s /\ valid_base32 s = false
                      /\ is_decode_error e = true
                      /\ generate_totp_code secret 30 w = (Raise e, w))
   \/ (clock_in_range w
       /\ exists s key code,
           secret = Some s /\ valid_base32 s = true
           /\ Base64.b32decode s true = Ok key
           /\ generate_totp_code secret 30 w = (Ok code, w)
           /\ malformed code = false
           /\ (clock_exact w -> code = TotpSpec.generate key (clock w))))
  /\ fst (generate_totp_code secret 30 w) <> Raise IndexError
  /\ fst (generate_totp_code secret 30 w) <> Raise ZeroDivisionError.
Proof.
  assert (T : (~ clock_in_range w
    /\ generate_totp_code secret 30 w = (Raise StructError, w))
   \/ (clock_in_range w /\ secret = None
       /\ generate_totp_code secret 30 w = (Raise TypeError, w))
   \/ (clock_in_range w
       /\ exists s e, secret = Some s /\ valid_base32 s = false
                      /\ is_decode_error e = true
                      /\ generate_totp_code secret 30 w = (Raise e, w))
   \/ (clock_in_range w
       /\ exists s key code,
           secret = Some s /\ valid_base32 s = true
           /\ Base64.b32decode s true = Ok key
           /\ generate_totp_code secret 30 w = (Ok code, w)
           /\ malformed code = false
           /\ (clock_exact w -> code = TotpSpec.generate key (clock w)))).
  { destruct (clock_in_range_dec w) as [R | N].
    - right. destruct secret as [s |].
      + right. destruct (valid_base32 s) eqn:V.
        * right. split; [exact R |].
          destruct (b32decode_valid s V) as [key K].
          exists s, key, (TotpSpec.generate key (clock w)).
          repeat split; try assumption.
          -- apply generate_totp_code_decoded; assumption.
          -- apply generated_code_shape.
        * left. split; [exact R |].
          destruct (b32decode_invalid s V) as [e [He K]].
          exists s, e. repeat split; try assumption.
          apply generate_totp_code_undecoded; assumption.
      + left. split; [exact R |]. split; [reflexivity |].
        unfold generate_totp_code, bind, time_time, floordiv, lift, ret, raise.
        change (30 =? 0) with false. cbv beta iota.
        rewrite (pack_counter _ R). reflexivity.
    - left. split; [exact N |].
      unfold generate_totp_code, bind, time_time, floordiv, lift, ret, raise.
      change (30 =? 0) with false. cbv beta iota.
      rewrite (pack_counter_out_of_range w N). reflexivity. }
  split; [exact T |].
  destruct T as [[_ E] | [[_ [_ E]] | [[_ [s [e [_ [_ [He E]]]]]]
                                      | [_ [s [key [code [_ [_ [_ [E _]]]]]]]]]]];
    rewrite E; cbn [fst]; split; try discriminate;
    intros X; inversion X; subst e; discriminate He.
Qed.

(** ** The list of users *)

Lemma print_rows_run (rows : list (Z * string * string)) :
  forall w, print_rows rows w = (Ok tt, printed_all (map row_line rows) w).
Proof.
  induction rows as [| [[id name] flag] rows IH]; intros w.
  - unfold printed_all. cbn [print_rows map ret]. rewrite app_nil_r.
    destruct w; reflexivity.
  - cbn [print_rows]. unfold bind, print. rewrite IH.
    unfold printed_all. cbn [users current_user stdout clock entropy map].
    rewrite <- app_assoc. reflexivity.
Qed.

Lemma display_rows_public (l : list Row) :
  map row_line
      (map (fun user : Z * string * Z =>
              let '(id, name, enabled) := user in
              (id, name, if negb (enabled =? 0) then "Yes" else "No"))
           (map (fun r => (row_id r, username r, two_factor_enabled r)) l))
  = map (fun x : Z * string * bool =>
           let '(id, name, enabled) := x in
           row_line (id, name, if enabled then "Yes" else "No"))
        (map public l).
Proof.
  rewrite !map_map. apply map_ext. intros x. unfold public.
  destruct (two_factor_enabled x =? 0); reflexivity.
Qed.

Lemma display_users_run (w : World) :
  display_users w
  = (Ok tt, printed_all (display_lines (map public (users w))) w).
Proof.
  unfold display_users, bind, select_all.
  destruct (users w) as [| r rows] eqn:U; [reflexivity |].
  change (display_lines (map public (r :: rows)))
    with ([String (ascii_of_nat 10) "Registered Users:";
           str_repeat "-" 40;
           (ljust 5 "ID" ++ ljust 20 "Username"
            ++ ljust 10 "2FA Enabled")%string;
           str_repeat "-" 40]
          ++ map (fun x : Z * string * bool =>
                    let '(id, name, enabled) := x in
                    row_line (id, name, if enabled then "Yes" else "No"))
                 (map public (r :: rows))).
  rewrite <- display_rows_public.
  cbn [map]. unfold print. rewrite print_rows_run.
  unfold printed_all. cbn [users current_user stdout clock entropy map].
  rewrite <- !app_assoc. reflexivity.
Qed.

(** X11.  [display_users] only prints: it never raises and leaves the
    rows, the current user, the clock and the entropy source as they
    were.  On an empty table it prints the single line "No users
    registered."; otherwise four lines of heading and one line for each
    row. *)
Theorem display_users_only_prints (w : World) :
  let w' := snd (display_users w) in
  fst (display_users w) = Ok tt
  /\ users w' = users w /\ current_user w' = current_user w
  /\ clock w' = clock w /\ entropy w' = entropy w
  /\ (users w = [] -> stdout w' = stdout w ++ ["No users registered."])
  /\ (users w <> [] ->
      length (stdout w') = (length (stdout w) + 4 + length (users w))%nat).
Proof.
  intros w'. subst w'. rewrite display_users_run. cbn [fst snd].
  unfold printed_all. cbn [users current_user stdout clock entropy].
  repeat split.
  - intros E. rewrite E. reflexivity.
  - intros N. destruct (users w) as [| r rows]; [contradiction N; reflexivity |].
    rewrite length_app. cbn [map display_lines app length].
    rewrite !length_map. lia.
Qed.

(** X12.  [display_users] shows no credentials: the lines it prints are
    determined by the ids, the names and the second-factor flags of the
    rows, so two tables that differ only in digests, salts and secrets
    are displayed alike. *)
Theorem display_users_hides_credentials (w w' : World) :
  map public (users w) = map public (users w') ->
  exists lines,
    stdout (snd (display_users w)) = stdout w ++ lines
    /\ stdout (snd (display_users w')) = stdout w' ++ lines.
Proof.
  intros E. exists (display_lines (map public (users w))).
  rewrite !display_users_run, <- E. split; reflexivity.
Qed.

(** ** What holds in every state that the object reaches *)

Lemma fetch_some_in (u : string) (w : World) (r : Row) :
  fetch u w = Some r -> In r (users w) /\ username r = u.
Proof.
  intros F. apply find_some in F. destruct F as [I E].
  split; [exact I | apply String.eqb_eq; exact E].
Qed.

Lemma fetch_known (u : string) (w : World) :
  fetch u w <> None <-> In u (map username (users w)).
Proof.
  unfold fetch. induction (users w) as [| x rows IH]; cbn [find map In].
  - split; [intros N; contradiction N; reflexivity | intros []].
  - destruct (String.eqb (username x) u) eqn:E.
    + apply String.eqb_eq in E. split; [auto | discriminate].
    + apply String.eqb_neq in E. rewrite IH. split; [auto |].
      intros [H | H]; [contradiction | exact H].
Qed.

Lemma state_ok_same_rows (w w' : World) :
  users w' = users w ->
  current_user w' = current_user w \/ current_user w' = None ->
  state_ok w -> state_ok w'.
Proof.
  intros U C [N [F K]]. unfold state_ok. rewrite U.
  split; [exact N |]. split; [exact F |].
  intros u Hu. apply fetch_known. rewrite U. apply fetch_known.
  apply K. destruct C as [C | C]; rewrite C in Hu; [exact Hu | discriminate].
Qed.

Lemma login_state (u p : string) (c : option string) (w : World) :
  users (snd (login u p c w)) = users w
  /\ (current_user (snd (login u p c w)) = current_user w
      \/ (current_user (snd (login u p c w)) = Some u /\ fetch u w <> None)).
Proof.
  rewrite login_run.
  destruct (fetch u w) as [row |] eqn:F; [| cbn; auto].
  destruct (check_password_total p row w) as [ok [w1 [E [Hu [Hc _]]]]].
  rewrite E.
  assert (S : users (logged_in u w1) = users w
              /\ (current_user (logged_in u w1) = current_user w
                  \/ (current_user (logged_in u w1) = Some u
                      /\ Some row <> None)))
    by (cbn; split; [exact Hu | right; split; [reflexivity | discriminate]]).
  assert (P : forall line,
             users (printed line w1) = users w
             /\ (current_user (printed line w1) = current_user w
                 \/ (current_user (printed line w1) = Some u
                     /\ Some row <> None)))
    by (intros line; cbn; auto).
  destruct ok; [| apply P].
  destruct (two_factor_enabled row =? 0); [exact S |].
  destruct c as [code |]; [| apply P].
  destruct (truthy (Some code)); [| apply P].
  pose proof (verify_totp_state (two_factor_secret row) code w1) as V.
  destruct (verify_totp (two_factor_secret row) code w1)
    as [[[|] | e] w2]; cbn [snd] in V; subst w2.
  - exact S.
  - apply P.
  - cbn [snd]. auto.
Qed.

Lemma logout_state (w : World) :
  users (snd (logout w)) = users w
  /\ (current_user (snd (logout w)) = current_user w
      \/ current_user (snd (logout w)) = None).
Proof.
  unfold logout, bind, get_current_user.
  destruct (current_user w) as [c |] eqn:C.
  - destruct (truthy (Some c)); cbn; auto.
  - cbn. auto.
Qed.

Lemma registered_row_ok (u p : string) (w : World) :
  row_ok (mkRow (next_rowid (users w)) u (salted_digest (fresh_salt w) p)
                (fresh_salt w) 0 None).
Proof.
  unfold row_ok. cbn [password_salt password_hash two_factor_enabled
                      two_factor_secret].
  split; [apply fresh_salt_length |].
  split; [apply hex_lower |].
  split; [unfold salted_digest;
          rewrite hex_length, sha256_digest_length; reflexivity |].
  split; [apply hex_lower | left; auto].
Qed.

Lemma two_factor_rows_ok (u : string) (w : World) (rows : list Row) :
  Forall row_ok rows ->
  Forall row_ok (two_factor_rows (issued_secret w) u rows).
Proof.
  intros H. unfold two_factor_rows. apply Forall_map.
  apply (Forall_impl _ (P := row_ok)); [| exact H].
  intros r Hr.
  destruct (String.eqb (username r) u); [| exact Hr].
  destruct Hr as [S1 [S2 [H1 [H2 _]]]].
  unfold row_ok. cbn [with_two_factor password_salt password_hash
                      two_factor_enabled two_factor_secret].
  repeat (split; [assumption |]). right. split; [reflexivity |].
  exists (issued_secret w). split; [reflexivity |].
  split; [apply issued_secret_decodes | apply issued_secret_valid].
Qed.

Lemma two_factor_rows_names (secret u : string) (rows : list Row) :
  map username (two_factor_rows secret u rows) = map username rows.
Proof.
  unfold two_factor_rows. rewrite map_map. apply map_ext. intros r.
  destruct (String.eqb (username r) u); reflexivity.
Qed.

(** Each call keeps the rows well formed, the names distinct and the
    current user among the users. *)
Lemma perform_state_ok (w : World) (c : call) :
  state_ok w -> state_ok (perform w c).
Proof.
  intros S. destruct c as [u p | u p code | u | | | t]; cbn [perform].
  - rewrite register_user_run.
    destruct (fetch u w) eqn:F; cbn [snd].
    + apply (state_ok_same_rows w); auto.
    + destruct S as [N [R K]]. unfold state_ok.
      change (users (registered u p w))
        with (users w ++ [mkRow (next_rowid (users w)) u
                                (salted_digest (fresh_salt w) p)
                                (fresh_salt w) 0 None]).
      change (current_user (registered u p w)) with (current_user w).
      split; [| split].
      * rewrite map_app. cbn [map username].
        apply (NoDup_Add (a := u) (l := map username (users w))).
        { rewrite <- (app_nil_r (map username (users w))) at 1.
          apply Add_app. }
        split; [exact N |]. intros I. apply fetch_known in I.
        contradiction.
      * apply Forall_app. split; [exact R |].
        constructor; [apply registered_row_ok | constructor].
      * intros u0 C. rewrite fetch_registered.
        destruct (fetch u0 w) eqn:F0; [discriminate |].
        exfalso. apply (K u0 C). exact F0.
  - destruct (login_state u p code w) as [U [C | [C F]]].
    + apply (state_ok_same_rows w); auto.
    + destruct S as [N [R K]]. unfold state_ok. rewrite U.
      split; [exact N |]. split; [exact R |].
      intros u0 C0. rewrite C in C0. inversion C0. subst u0.
      apply fetch_known. rewrite U. apply fetch_known. exact F.
  - destruct (current_user w) as [cu |] eqn:C.
    + destruct (String.eqb cu u) eqn:E.
      * apply String.eqb_eq in E. subst cu.
        destruct (truthy (Some u)) eqn:T.
        { assert (Hu : u <> "") by (intros ->; discriminate T).
          destruct (enable_2fa_stored u w C Hu) as [U [C' _]].
          destruct S as [N [R K]]. unfold state_ok. rewrite U.
          split; [rewrite two_factor_rows_names; exact N |].
          split; [apply two_factor_rows_ok; exact R |].
          intros u0 C0. rewrite C' in C0. inversion C0. subst u0.
          apply fetch_known. rewrite U, two_factor_rows_names.
          apply fetch_known. apply K. exact C. }
        { rewrite (enable_2fa_refused u w) by (left; rewrite C; exact T).
          apply (state_ok_same_rows w); auto. }
      * rewrite (enable_2fa_refused u w).
        { apply (state_ok_same_rows w); auto. }
        right. rewrite C. intros X. inversion X. subst cu.
        rewrite String.eqb_refl in E. discriminate E.
    + rewrite (enable_2fa_refused u w) by (left; rewrite C; reflexivity).
      apply (state_ok_same_rows w); auto.
  - destruct (logout_state w) as [U C].
    apply (state_ok_same_rows w); auto.
  - rewrite display_users_run. apply (state_ok_same_rows w); auto.
  - apply (state_ok_same_rows w); auto.
Qed.

Lemma fold_perform_state_ok (calls : list call) :
  forall w0, state_ok w0 -> state_ok (fold_left perform calls w0).
Proof.
  induction calls as [| c calls IH]; intros w0 S; [exact S |].
  cbn [fold_left]. apply IH. apply perform_state_ok. exact S.
Qed.

Lemma init_state_ok (t : Z) (e : nat -> byte) : state_ok (init t e).
Proof.
  unfold state_ok, init. cbn. split; [constructor |].
  split; [constructor | discriminate].
Qed.

(** X13.  In every state that a fresh object reaches by calls of
    [register_user], [login], [enable_2fa], [logout] and [display_users],
    with any passing of time in between: the user names of the rows are
    pairwise distinct; every row has a salt of 32 lowercase hexadecimal
    digits and a digest of 64; every row either has the second factor off
    and no secret, or has it on with a base32 secret of 16 characters;
    and the current user, if any, is the name of a row. *)
Theorem reachable_state_ok (w : World) : reachable w -> state_ok w.
Proof.
  intros [t [e [calls ->]]].
  apply fold_perform_state_ok. apply init_state_ok.
Qed.

(** X14.  In every such state, with a clock whose counter fits 64 bits,
    [login] with a name, a password and a code that are text never
    raises, and it draws nothing from the entropy source.  With a
    password that is any [str], it raises for one cause only: the
    password cannot be encoded and the name has a row; the exception is
    then that of [password.encode()], [UnicodeEncodeError]. *)
Theorem reachable_login_returns
        (w : World) (u p : string) (q : list Z) (c : option string) :
  reachable w -> clock_in_range w ->
  (exists v, fst (login u p c w) = Ok v)
  /\ entropy (snd (login u p c w)) = entropy w
  /\ ((exists v, fst (login_str u q c w) = Ok v)
      \/ (exists e, Utf8.encode q = Raise e
                    /\ fst (login_str u q c w) = Raise e
                    /\ fetch u w <> None)).
Proof.
  intros Hr Hc.
  assert (S : state_ok w).
  { destruct Hr as [t [e [calls ->]]].
    apply fold_perform_state_ok. apply init_state_ok. }
  destruct S as [_ [R _]].
  assert (L : forall p0,
             (exists v, fst (login u p0 c w) = Ok v)
             /\ entropy (snd (login u p0 c w)) = entropy w).
  { intros p0. rewrite login_run.
    destruct (fetch u w) as [row |] eqn:F; [| cbn; eauto].
    destruct (fetch_some_in u w row F) as [I _].
    rewrite Forall_forall in R. destruct (R row I) as [S1 [_ [_ [_ T]]]].
    assert (Hs : password_salt row <> "")
      by (intros E; rewrite E in S1; discriminate S1).
    rewrite check_password_supplied by exact Hs.
    destruct (String.eqb _ (password_hash row)); [| cbn; eauto].
    destruct T as [[T0 _] | [T1 [s [Ts [_ V]]]]].
    - rewrite T0. cbn. eauto.
    - rewrite T1. change (1 =? 0) with false. cbv iota.
      destruct c as [code |]; [| cbn; eauto].
      destruct (truthy (Some code)); [| cbn; eauto].
      destruct (b32decode_valid s V) as [key K].
      unfold verify_totp, bind. rewrite Ts.
      rewrite (generate_totp_code_decoded s key w K Hc). unfold ret.
      destruct (String.eqb _ code); cbn; eauto. }
  destruct (L p) as [L1 L2]. split; [exact L1 |]. split; [exact L2 |].
  destruct (Utf8.encode q) as [bs | e] eqn:E.
  - left. rewrite (login_str_text u q bs c w E). apply L.
  - rewrite (login_str_unencodable u q e c w E).
    destruct (fetch u w) as [row |] eqn:F; [| left; cbn; eauto].
    right. exists e. repeat split; discriminate.
Qed.

(** ** When a login succeeds *)

(** The result of [generate_totp_code] is the same in two states whose
    clocks fall in the same window. *)
Lemma generate_totp_code_same_window
      (secret : option string) (w w' : World) :
  clock w / 30 = clock w' / 30 ->
  fst (generate_totp_code secret 30 w) = fst (generate_totp_code secret 30 w').
Proof.
  intros H.
  unfold generate_totp_code, bind, time_time, floordiv, lift, ret, raise.
  change (30 =? 0) with false. cbv beta iota. rewrite H.
  destruct (Struct.pack_Q (clock w' / 30)) as [cb | e]; [| reflexivity].
  destruct secret as [s |]; [| reflexivity].
  destruct (Base64.b32decode s true) as [key | e]; [| reflexivity].
  cbv zeta.
  assert (Hm : length (Hmac.sha1 key cb) = 20%nat) by apply hmac_sha1_length.
  set (m := Hmac.sha1 key cb) in *. clearbody m.
  rewrite !(getitem_last m Hm).
  pose proof (land_15_range (Bytes.to_Z (nth 19 m x00))) as Ho.
  set (o := Z.land (Bytes.to_Z (nth 19 m x00)) 0x0F) in *.
  rewrite !(getitem_at m Hm o) by lia.
  rewrite !(getitem_at m Hm) by lia.
  reflexivity.
Qed.

(** X15.  [login] returns [True] only for a name that has a row whose
    stored digest is the digest of the stored salt followed by the
    password; and when that row has the second factor on, only with a
    submitted code that is the one [generate_totp_code] returns for the
    stored secret at that moment. *)
Theorem login_success_sound (u p : string) (c : option string) (w : World) :
  fst (login u p c w) = Ok (PyBool true) ->
  exists row,
    fetch u w = Some row
    /\ (password_salt row <> "" ->
        password_hash row = salted_digest (password_salt row) p)
    /\ (two_factor_enabled row <> 0 ->
        exists secret code,
          two_factor_secret row = Some secret
          /\ c = Some code
          /\ malformed code = false
          /\ fst (generate_totp_code (Some secret) 30 w) = Ok code).
Proof.
  rewrite login_run.
  destruct (fetch u w) as [row |] eqn:F; [| cbn; discriminate].
  intros H. exists row. split; [reflexivity |].
  destruct (check_password_total p row w) as [ok [w1 [E [_ [_ [_ Hk]]]]]].
  rewrite E in H.
  destruct ok; [| cbn in H; discriminate H].
  split.
  - intros Hs. rewrite check_password_supplied in E by exact Hs.
    injection E as E _. apply String.eqb_eq in E. symmetry. exact E.
  - intros N. apply Z.eqb_neq in N. rewrite N in H.
    destruct c as [code |]; [| cbn in H; discriminate H].
    destruct (truthy (Some code)); [| cbn in H; discriminate H].
    unfold verify_totp, bind in H.
    destruct (two_factor_secret row) as [secret |] eqn:S.
    + destruct (generate_totp_code (Some secret) 30 w1) as [[g | e] w2] eqn:G;
        [| cbn in H; discriminate H].
      destruct (generate_totp_code_inv _ _ _ _ G) as [key [K [R [-> ->]]]].
      unfold ret in H.
      destruct (String.eqb (TotpSpec.generate key (clock w1)) code) eqn:Q;
        [| cbn in H; discriminate H].
      apply String.eqb_eq in Q.
      exists secret, code. split; [reflexivity |]. split; [reflexivity |].
      split; [rewrite <- Q; apply generated_code_shape |].
      rewrite (generate_totp_code_same_window (Some secret) w w1)
        by (rewrite Hk; reflexivity).
      rewrite G. cbn [fst]. rewrite Q. reflexivity.
    + destruct (generate_totp_code None 30 w1) as [[g | e] w2] eqn:G;
        [| cbn in H; discriminate H].
      exfalso. revert G.
      unfold generate_totp_code, bind, time_time, floordiv, lift, ret, raise.
      change (30 =? 0) with false. cbv beta iota.
      destruct (Struct.pack_Q (clock w1 / 30)); discriminate.
Qed.

(* ================================================================== *)
(** * The further properties on the concrete run *)

Lemma register_user_taken_witness :
  fetch "alice" alice_world = Some alice_row
  /\ fst (register_user "alice" "other" alice_world) = Ok false
  /\ users (snd (register_user "alice" "other" alice_world))
     = users alice_world.
Proof.
  assert (F : fetch "alice" alice_world = Some alice_row)
    by (vm_compute; reflexivity).
  split; [exact F |].
  pose proof (register_user_taken "alice" "other" alice_world alice_row F)
    as [H1 [H2 _]].
  split; [exact H1 | exact H2].
Defined.

Lemma register_then_login_witness :
  fetch "alice" world0 = None
  /\ fst (register_user "alice" "Secret123!" world0) = Ok true
  /\ login "alice" "Secret123!" None alice_world
     = (Ok (PyBool true), logged_in "alice" alice_world).
Proof.
  assert (F : fetch "alice" world0 = None) by reflexivity.
  split; [exact F |].
  pose proof (register_then_login "alice" "Secret123!" world0 F) as [H1 H2].
  split; [exact H1 |].
  exact (H2 None alice_world eq_refl).
Defined.

Lemma register_user_keeps_accounts_witness :
  fetch "alice" alice_world = Some alice_row
  /\ fetch "alice" (snd (register_user "bob" "pw" alice_world))
     = Some alice_row.
Proof.
  assert (F : fetch "alice" alice_world = Some alice_row)
    by (vm_compute; reflexivity).
  split; [exact F |].
  exact (register_user_keeps_accounts "bob" "pw" "alice" alice_world
                                      alice_row F).
Defined.

Lemma enable_2fa_needs_login_witness :
  (truthy (current_user alice_world) = false
   \/ current_user alice_world <> Some "alice")
  /\ fst (enable_2fa "alice" alice_world) = Ok None
  /\ users (snd (enable_2fa "alice" alice_world)) = users alice_world.
Proof.
  assert (H : truthy (current_user alice_world) = false
              \/ current_user alice_world <> Some "alice")
    by (left; reflexivity).
  split; [exact H |].
  pose proof (enable_2fa_needs_login "alice" alice_world H) as [H1 [H2 _]].
  split; [exact H1 | exact H2].
Defined.

Lemma enable_2fa_issues_secret_witness :
  current_user alice_logged_world = Some "alice"
  /\ "alice" <> ""
  /\ clock_in_range alice_logged_world
  /\ fst (enable_2fa "alice" alice_logged_world)
     = Ok (Some (issued_secret alice_logged_world))
  /\ issued_secret alice_logged_world = "CAIREEYUCULBOGAZ".
Proof.
  assert (C : current_user alice_logged_world = Some "alice")
    by (vm_compute; reflexivity).
  assert (N : "alice" <> "") by (apply string_neq_of_eqb; reflexivity).
  assert (R : clock_in_range alice_logged_world)
    by (unfold clock_in_range; vm_compute; split; [discriminate | reflexivity]).
  split; [exact C |]. split; [exact N |]. split; [exact R |].
  split; [| vm_compute; reflexivity].
  exact (proj1 (enable_2fa_issues_secret "alice" alice_logged_world C N R)).
Defined.

Lemma enable_then_login_witness :
  current_user alice_logged_world = Some "alice"
  /\ "alice" <> ""
  /\ clock_in_range alice_logged_world
  /\ fetch "alice" alice_logged_world = Some alice_row
  /\ password_salt alice_row <> ""
  /\ password_hash alice_row
     = salted_digest (password_salt alice_row) "Secret123!"
  /\ login "alice" "Secret123!" None alice_2fa_world
     = (Ok (PyStr "2FA_REQUIRED"),
        printed "Two-factor authentication is required." alice_2fa_world).
Proof.
  assert (C : current_user alice_logged_world = Some "alice")
    by (vm_compute; reflexivity).
  assert (N : "alice" <> "") by (apply string_neq_of_eqb; reflexivity).
  assert (R : clock_in_range alice_logged_world)
    by (unfold clock_in_range; vm_compute; split; [discriminate | reflexivity]).
  assert (F : fetch "alice" alice_logged_world = Some alice_row)
    by (vm_compute; reflexivity).
  assert (S : password_salt alice_row <> "")
    by (apply string_neq_of_eqb; reflexivity).
  assert (H : password_hash alice_row
              = salted_digest (password_salt alice_row) "Secret123!")
    by (vm_compute; reflexivity).
  assert (U : users alice_2fa_world
              = users (snd (enable_2fa "alice" alice_logged_world)))
    by (vm_compute; reflexivity).
  repeat (split; [assumption |]).
  exact (proj1 (enable_then_login "alice" "Secret123!" alice_logged_world
                                  alice_row C N R F S H alice_2fa_world U)
               None eq_refl).
Defined.

Lemma generate_totp_code_window_witness :
  clock world0 / 30 = clock world31 / 30
  /\ fst (generate_totp_code (Some rfc6238_secret) 30 world0)
     = fst (generate_totp_code (Some rfc6238_secret) 30 world31).
Proof.
  assert (C : clock world0 / 30 = clock world31 / 30) by reflexivity.
  split; [exact C |].
  exact (generate_totp_code_window (Some rfc6238_secret) world0 world31 C).
Defined.

Lemma display_users_hides_credentials_witness :
  map public (users alice_world) = map public (users masked_world)
  /\ exists lines,
      stdout (snd (display_users alice_world)) = stdout alice_world ++ lines
      /\ stdout (snd (display_users masked_world))
         = stdout masked_world ++ lines.
Proof.
  assert (E : map public (users alice_world) = map public (users masked_world))
    by (vm_compute; reflexivity).
  split; [exact E |].
  exact (display_users_hides_credentials alice_world masked_world E).
Defined.

Lemma alice_2fa_world_reachable : reachable alice_2fa_world.
Proof.
  exists 59, tape0,
    [CallRegister "alice" "Secret123!"; CallLogin "alice" "Secret123!" None;
     CallEnable2fa "alice"; CallLogout].
  vm_compute. reflexivity.
Defined.

Lemma reachable_state_ok_witness :
  reachable alice_2fa_world /\ state_ok alice_2fa_world.
Proof.
  split; [exact alice_2fa_world_reachable |].
  exact (reachable_state_ok alice_2fa_world alice_2fa_world_reachable).
Defined.

Lemma reachable_login_returns_witness :
  reachable alice_2fa_world
  /\ clock_in_range alice_2fa_world
  /\ fst (login "alice" "Secret123!" (Some "12") alice_2fa_world)
     = Ok (PyBool false)
  /\ stdout (snd (login "alice" "Secret123!" (Some "12") alice_2fa_world))
     = stdout alice_2fa_world ++ ["Invalid two-factor code."]
  /\ exists v,
      fst (login "alice" "Secret123!" (Some "12") alice_2fa_world) = Ok v.
Proof.
  assert (R : clock_in_range alice_2fa_world)
    by (unfold clock_in_range; vm_compute; split; [discriminate | reflexivity]).
  split; [exact alice_2fa_world_reachable |]. split; [exact R |].
  split; [vm_compute; reflexivity |]. split; [vm_compute; reflexivity |].
  exact (proj1 (reachable_login_returns
                  alice_2fa_world "alice" "Secret123!" surrogate_password
                  (Some "12") alice_2fa_world_reachable R)).
Defined.

Lemma login_success_sound_witness :
  fst (login "alice" "Secret123!" (Some "782421") alice_2fa_world)
  = Ok (PyBool true)
  /\ fetch "alice" alice_2fa_world
     = Some (with_two_factor "CAIREEYUCULBOGAZ" alice_row)
  /\ exists row,
      fetch "alice" alice_2fa_world = Some row
      /\ (password_salt row <> "" ->
          password_hash row = salted_digest (password_salt row) "Secret123!")
      /\ (two_factor_enabled row <> 0 ->
          exists secret code,
            two_factor_secret row = Some secret
            /\ Some "782421" = Some code
            /\ malformed code = false
            /\ fst (generate_totp_code (Some secret) 30 alice_2fa_world)
               = Ok code).
Proof.
  assert (H : fst (login "alice" "Secret123!" (Some "782421") alice_2fa_world)
              = Ok (PyBool true)) by (vm_compute; reflexivity).
  split; [exact H |]. split; [vm_compute; reflexivity |].
  exact (login_success_sound "alice" "Secret123!" (Some "782421")
                             alice_2fa_world H).
Defined.
